(** * dolphinSpa booking backend ([server1.js])

    A shallow embedding of the Express request handlers of [server1.js]
    and of the PostgreSQL statements they issue, followed by the
    properties of the service that the handlers establish. *)

From Stdlib Require Import List String Ascii Bool ZArith QArith Lia.
From Stdlib Require Import Sorting.Sorted Sorting.Permutation.
From Stdlib Require DecimalString OrdersEx.
Import ListNotations.

Local Open Scope string_scope.
Local Open Scope Z_scope.

(** ** JavaScript values carried by JSON bodies *)

(** An ECMAScript Number.  A finite double is represented by the rational
    it denotes: the handlers only test numbers for zero and compare them
    with the literals [1] and [5], and both operations agree with the
    same operations on the denoted rationals.  The two zeros are merged
    (they are both falsy and compare alike). *)
Inductive Number : Type :=
| NaN
| Infinity (negative : bool)
| Finite (q : Q).

Definition of_Z (n : Z) : Number := Finite (inject_Z n).

Definition Qlt_bool (x y : Q) : bool :=
  (Qnum x * QDen y <? Qnum y * QDen x)%Z.

(** [x < y] on Numbers; a comparison involving [NaN] is [undefined],
    which the operators [<] and [>] turn into [false]. *)
Definition number_lt (x y : Number) : bool :=
  match x, y with
  | NaN, _ | _, NaN => false
  | Infinity true, Infinity true => false
  | Infinity true, _ => true
  | _, Infinity true => false
  | Infinity false, _ => false
  | _, Infinity false => true
  | Finite a, Finite b => Qlt_bool a b
  end.

#[local] Set Warnings "-register-all".

Inductive JsValue : Type :=
| JUndefined
| JNull
| JBool (b : bool)
| JNum (n : Number)
| JStr (s : string)
| JArr (elements : list JsValue)
| JObj (properties : list (string * JsValue)).

(** ToBoolean: [undefined], [null], [false], [0], [NaN] and the empty
    string are falsy; everything else (arrays and objects included) is
    truthy. *)
Definition truthy (v : JsValue) : bool :=
  match v with
  | JUndefined | JNull => false
  | JBool b => b
  | JNum NaN => false
  | JNum (Infinity _) => true
  | JNum (Finite q) => negb (Qeq_bool q 0)
  | JStr s => negb (String.eqb s EmptyString)
  | JArr _ | JObj _ => true
  end.

(** [!v] *)
Definition not_ (v : JsValue) : bool := negb (truthy v).

(** [v === undefined] *)
Definition is_undefined (v : JsValue) : bool :=
  match v with JUndefined => true | _ => false end.

(** An object of own properties in insertion order; the first binding of
    a key is the property.  [get o k] is [o.k] (and what destructuring
    [const { k } = o] binds): [undefined] when [o] has no such
    property. *)
Definition Obj : Type := list (string * JsValue).

Fixpoint get (o : Obj) (k : string) : JsValue :=
  match o with
  | [] => JUndefined
  | (k', v) :: o' => if String.eqb k' k then v else get o' k
  end.

(** [o.hasOwnProperty(k)] *)
Definition has_own_property (o : Obj) (k : string) : bool :=
  existsb (fun p => String.eqb (fst p) k) o.

(** The errors that the code can raise.  [StoreError] is the error with
    which [pool.query] rejects. *)
Inductive Exception : Type :=
| ReferenceError (identifier : string)
| TypeError (message : string)
| StoreError (message : string).

(** [err.message] *)
Definition message_of (e : Exception) : string :=
  match e with
  | ReferenceError x => x ++ " is not defined"
  | TypeError m => m
  | StoreError m => m
  end.

Definition not_primitive : Exception :=
  TypeError "Cannot convert object to primitive value".

(** [Array.prototype.join] applied to the printed elements: the first
    element that fails to print raises its error. *)
Fixpoint join (l : list (Exception + string)) : Exception + string :=
  match l with
  | [] => inr EmptyString
  | x :: l' =>
      match x with
      | inl e => inl e
      | inr s =>
          match l' with
          | [] => inr s
          | _ =>
              match join l' with
              | inl e => inl e
              | inr t => inr (s ++ "," ++ t)
              end
          end
      end
  end.

(** The parts of the platform that lie outside the repository: how the
    language prints and reads numeric literals, how the store reads a
    bound parameter as a key of an [id] column (driver serialisation
    followed by the column's input function; [inl] is the error message
    of a rejected parameter), and how the store orders the values of the
    [datetime] column. *)
Class Platform : Type := {
  NumberToString : Number -> string;
  StringToNumber : string -> Number;
  id_in : JsValue -> string + Z;
  datetime_leb : JsValue -> JsValue -> bool
}.

Section Coercions.
Context {P : Platform}.

(** ToString, as applied by template literals.  An array prints its
    elements separated by commas, [null] and [undefined] elements as
    the empty string.  An object parsed from JSON prints through the
    inherited [toString] as [[object Object]], unless a property of its
    own named [toString] hides that method: such a property is never
    callable, [valueOf] does not yield a primitive either, and the
    conversion raises a TypeError. *)
Fixpoint ToString (v : JsValue) : Exception + string :=
  match v with
  | JUndefined => inr "undefined"
  | JNull => inr "null"
  | JBool true => inr "true"
  | JBool false => inr "false"
  | JNum n => inr (NumberToString n)
  | JStr s => inr s
  | JArr l =>
      join (map (fun x => match x with
                          | JUndefined | JNull => inr EmptyString
                          | _ => ToString x
                          end) l)
  | JObj o =>
      if has_own_property o "toString" then inl not_primitive
      else inr "[object Object]"
  end.

(** ToNumber, as applied by [<] and [>] when the other operand is a
    Number.  Arrays and objects go through ToPrimitive, which yields
    their string form or raises. *)
Definition ToNumber (v : JsValue) : Exception + Number :=
  match v with
  | JUndefined => inr NaN
  | JNull => inr (of_Z 0)
  | JBool true => inr (of_Z 1)
  | JBool false => inr (of_Z 0)
  | JNum n => inr n
  | JStr s => inr (StringToNumber s)
  | JArr _ | JObj _ =>
      match ToString v with
      | inl e => inl e
      | inr s => inr (StringToNumber s)
      end
  end.

(** [v < n] and [v > n] for a numeric literal [n]. *)
Definition lt_lit (v : JsValue) (n : Z) : Exception + bool :=
  match ToNumber v with
  | inl e => inl e
  | inr x => inr (number_lt x (of_Z n))
  end.

Definition gt_lit (v : JsValue) (n : Z) : Exception + bool :=
  match ToNumber v with
  | inl e => inl e
  | inr x => inr (number_lt (of_Z n) x)
  end.

(** [v < lo || v > hi] *)
Definition outside (v : JsValue) (lo hi : Z) : Exception + bool :=
  match lt_lit v lo with
  | inl e => inl e
  | inr true => inr true
  | inr false => gt_lit v hi
  end.

End Coercions.

(** ** The relational store *)

Module Booking.

(** Modelled from the spec: a row of the table [bookings4], whose
    CREATE TABLE statement is not part of [server1.js].  The columns are
    those of the persisted schema; [id] is generated by the store,
    [payment_status] defaults to ['pending'] and [booking_time] to the
    time of insertion.  The six client-supplied columns keep the values
    as they were supplied. *)
Record t : Type := {
  id : Z;
  service : JsValue;
  duration : JsValue;
  price : JsValue;
  name : JsValue;
  phone : JsValue;
  datetime : JsValue;
  payment_status : string;
  booking_time : Z
}.

(** [SET payment_status = s] on one row. *)
Definition set_payment_status (s : string) (b : t) : t :=
  {| id := id b; service := service b; duration := duration b;
     price := price b; name := name b; phone := phone b;
     datetime := datetime b; payment_status := s;
     booking_time := booking_time b |}.

End Booking.

Module Testimonial.

(** Modelled from the spec: a row of the table [testimonials], whose
    CREATE TABLE statement is not part of [server1.js]; [id] is
    generated by the store and [created_at] is the time of insertion. *)
Record t : Type := {
  id : Z;
  reviewer_name : JsValue;
  reviewer_email : JsValue;
  review_title : JsValue;
  review_text : JsValue;
  rating : JsValue;
  genuine_opinion : JsValue;
  created_at : Z
}.

End Testimonial.

(** Modelled from the spec: the two tables, and the generation of
    ids, which the spec only requires to be unique: the model draws them
    from one counter per table, which only grows. *)
Record Database : Type := {
  bookings4 : list Booking.t;
  bookings4_id_seq : Z;
  testimonials : list Testimonial.t;
  testimonials_id_seq : Z
}.

Definition empty_database : Database :=
  {| bookings4 := []; bookings4_id_seq := 1;
     testimonials := []; testimonials_id_seq := 1 |}.

(** The statements that [server1.js] passes to [pool.query], each with
    its bound parameters. *)
Inductive Statement : Type :=
| (** [SELECT * FROM bookings4 ORDER BY datetime DESC;] *)
  SelectBookings
| (** [INSERT INTO bookings4(service, duration, price, name, phone,
      datetime) VALUES($1, $2, $3, $4, $5, $6) RETURNING *;] *)
  InsertBooking (service duration price name phone datetime : JsValue)
| (** [DELETE FROM bookings4 WHERE id = $1 RETURNING id;] *)
  DeleteBooking (id : JsValue)
| (** [UPDATE bookings4 SET payment_status = $1 WHERE id = $2
      RETURNING *;] *)
  UpdatePaymentStatus (payment_status : string) (id : JsValue)
| (** [INSERT INTO testimonials(reviewer_name, reviewer_email,
      review_title, review_text, rating, genuine_opinion, created_at)
      VALUES($1, $2, $3, $4, $5, $6, NOW()) RETURNING *;] *)
  InsertTestimonial (reviewerName reviewerEmail reviewTitle reviewText
                     rating genuineOpinion : JsValue)
| (** [SELECT * FROM testimonials ORDER BY created_at DESC;] *)
  SelectTestimonials
| (** [DELETE FROM testimonials WHERE id = $1 RETURNING id;] *)
  DeleteTestimonial (id : JsValue).

Inductive Row : Type :=
| BookingRow (b : Booking.t)
| TestimonialRow (t : Testimonial.t)
| IdRow (id : Z).

(** The part of a node-postgres result that the handlers read. *)
Record QueryResult : Type := {
  rows : list Row;
  rowCount : nat
}.

(** The driver binds [undefined] as NULL. *)
Definition pg_value (v : JsValue) : JsValue :=
  match v with
  | JUndefined => JNull
  | _ => v
  end.

(** [ORDER BY ... DESC]: insertion into a list kept in descending
    order of [leb]. *)
Fixpoint insert_desc {A : Type} (leb : A -> A -> bool) (a : A) (l : list A)
  : list A :=
  match l with
  | [] => [a]
  | x :: l' => if leb x a then a :: l else x :: insert_desc leb a l'
  end.

Definition order_by_desc {A : Type} (leb : A -> A -> bool) (l : list A)
  : list A :=
  fold_right (insert_desc leb) [] l.

Section Store.
Context {P : Platform}.

Definition booking_leb (a b : Booking.t) : bool :=
  datetime_leb (Booking.datetime a) (Booking.datetime b).

Definition testimonial_leb (a b : Testimonial.t) : bool :=
  Testimonial.created_at a <=? Testimonial.created_at b.

(** One statement executed at store time [now]: either the store
    rejects a parameter, or it returns the result and the new state.  A
    statement is atomic. *)
Definition execute (now : Z) (q : Statement) (d : Database)
  : string + (QueryResult * Database) :=
  match q with
  | SelectBookings =>
      let l := order_by_desc booking_leb (bookings4 d) in
      inr ({| rows := map BookingRow l; rowCount := List.length l |}, d)
  | InsertBooking service duration price name phone datetime =>
      let b := {| Booking.id := bookings4_id_seq d;
                  Booking.service := pg_value service;
                  Booking.duration := pg_value duration;
                  Booking.price := pg_value price;
                  Booking.name := pg_value name;
                  Booking.phone := pg_value phone;
                  Booking.datetime := pg_value datetime;
                  Booking.payment_status := "pending";
                  Booking.booking_time := now |} in
      inr ({| rows := [BookingRow b]; rowCount := 1 |},
           {| bookings4 := bookings4 d ++ [b];
              bookings4_id_seq := bookings4_id_seq d + 1;
              testimonials := testimonials d;
              testimonials_id_seq := testimonials_id_seq d |})
  | DeleteBooking id =>
      match id_in id with
      | inl msg => inl msg
      | inr k =>
          let hit := filter (fun b => Booking.id b =? k) (bookings4 d) in
          inr ({| rows := map (fun b => IdRow (Booking.id b)) hit;
                  rowCount := List.length hit |},
               {| bookings4 :=
                    filter (fun b => negb (Booking.id b =? k)) (bookings4 d);
                  bookings4_id_seq := bookings4_id_seq d;
                  testimonials := testimonials d;
                  testimonials_id_seq := testimonials_id_seq d |})
      end
  | UpdatePaymentStatus s id =>
      match id_in id with
      | inl msg => inl msg
      | inr k =>
          let hit := filter (fun b => Booking.id b =? k) (bookings4 d) in
          let hit' := map (Booking.set_payment_status s) hit in
          inr ({| rows := map BookingRow hit'; rowCount := List.length hit' |},
               {| bookings4 :=
                    map (fun b => if Booking.id b =? k
                                  then Booking.set_payment_status s b
                                  else b) (bookings4 d);
                  bookings4_id_seq := bookings4_id_seq d;
                  testimonials := testimonials d;
                  testimonials_id_seq := testimonials_id_seq d |})
      end
  | InsertTestimonial reviewerName reviewerEmail reviewTitle reviewText
                      rating genuineOpinion =>
      let t := {| Testimonial.id := testimonials_id_seq d;
                  Testimonial.reviewer_name := pg_value reviewerName;
                  Testimonial.reviewer_email := pg_value reviewerEmail;
                  Testimonial.review_title := pg_value reviewTitle;
                  Testimonial.review_text := pg_value reviewText;
                  Testimonial.rating := pg_value rating;
                  Testimonial.genuine_opinion := pg_value genuineOpinion;
                  Testimonial.created_at := now |} in
      inr ({| rows := [TestimonialRow t]; rowCount := 1 |},
           {| bookings4 := bookings4 d;
              bookings4_id_seq := bookings4_id_seq d;
              testimonials := testimonials d ++ [t];
              testimonials_id_seq := testimonials_id_seq d + 1 |})
  | SelectTestimonials =>
      let l := order_by_desc testimonial_leb (testimonials d) in
      inr ({| rows := map TestimonialRow l; rowCount := List.length l |}, d)
  | DeleteTestimonial id =>
      match id_in id with
      | inl msg => inl msg
      | inr k =>
          let hit :=
            filter (fun t => Testimonial.id t =? k) (testimonials d) in
          inr ({| rows := map (fun t => IdRow (Testimonial.id t)) hit;
                  rowCount := List.length hit |},
               {| bookings4 := bookings4 d;
                  bookings4_id_seq := bookings4_id_seq d;
                  testimonials :=
                    filter (fun t => negb (Testimonial.id t =? k))
                           (testimonials d);
                  testimonials_id_seq := testimonials_id_seq d |})
      end
  end.

End Store.

(** ** Effects of a handler *)

Inductive ConsoleLine : Type :=
| ConsoleLog (text : string)
| ConsoleWarn (text : string)
| ConsoleError (text : string) (err : Exception)
| ConsoleErrorText (text : string) (detail : string).

(** What a request can observe and change: the tables, the statements
    passed to [pool.query] so far (oldest first) and the console. *)
Record World : Type := {
  db : Database;
  issued : list Statement;
  console : list ConsoleLine
}.

Definition initial_world : World :=
  {| db := empty_database; issued := []; console := [] |}.

(** What the environment decides for one request: whether the store
    fails the statement for a reason of its own (lost connection, a
    violated constraint, a value the column refuses), with the message
    of the error, and the store's clock. *)
Record Oracle : Type := {
  fault : option string;
  clock : Z
}.

(** The settlement of a promise. *)
Inductive Result (A : Type) : Type :=
| Fulfilled (a : A)
| Rejected (e : Exception).

Arguments Fulfilled {A} a.
Arguments Rejected {A} e.

Definition Async (A : Type) : Type := Oracle -> World -> Result A * World.

Definition ret {A : Type} (a : A) : Async A :=
  fun _ w => (Fulfilled a, w).

Definition bind {A B : Type} (m : Async A) (k : A -> Async B) : Async B :=
  fun o w =>
    match m o w with
    | (Fulfilled a, w') => k a o w'
    | (Rejected e, w') => (Rejected e, w')
    end.

(** [try { m } catch (err) { h err }] *)
Definition try_catch {A : Type} (m : Async A) (h : Exception -> Async A)
  : Async A :=
  fun o w =>
    match m o w with
    | (Fulfilled a, w') => (Fulfilled a, w')
    | (Rejected e, w') => h e o w'
    end.

Notation "x <- m ;; k" := (bind m (fun x => k))
  (at level 61, m at next level, right associativity).
Notation "m ;;; k" := (bind m (fun _ => k))
  (at level 61, right associativity).

(** A computation of the language that yields a value or throws. *)
Definition eval {A : Type} (x : Exception + A) : Async A :=
  fun _ w =>
    match x with
    | inl e => (Rejected e, w)
    | inr a => (Fulfilled a, w)
    end.

Definition print (l : ConsoleLine) : Async unit :=
  fun _ w =>
    (Fulfilled tt,
     {| db := db w; issued := issued w; console := (console w ++ [l])%list |}).

(** [a || b] on strings. *)
Definition or_else (a b : string) : string :=
  if String.eqb a EmptyString then b else a.

Section Service.
Context {P : Platform}.

(** [await pool.query(q)] *)
Definition pool_query (q : Statement) : Async QueryResult :=
  fun o w =>
    let sent := (issued w ++ [q])%list in
    match fault o with
    | Some msg =>
        (Rejected (StoreError msg),
         {| db := db w; issued := sent; console := console w |})
    | None =>
        match execute (clock o) q (db w) with
        | inl msg =>
            (Rejected (StoreError msg),
             {| db := db w; issued := sent; console := console w |})
        | inr (r, d') =>
            (Fulfilled r, {| db := d'; issued := sent; console := console w |})
        end
    end.

(** ** Responses *)

(** What an identifier is bound to: a value of the request, or one of
    the objects of the runtime (functions, the pool, [req], [res]). *)
Inductive Binding : Type :=
| Value (v : JsValue)
| HostObject.

Inductive Payload : Type :=
| (** [{ error: ... }] *)
  ErrorBody (error : string)
| (** [{ message: ... }] *)
  MessageBody (message : string)
| (** [result.rows[0]] *)
  RowBody (row : option Row)
| (** [result.rows] *)
  RowsBody (rows : list Row)
| (** [{ message, qrCodeUrl, transactionId, status }] *)
  InitiationBody (message : string) (qrCodeUrl transactionId : Binding)
                 (status : string).

Record Response : Type := {
  status : Z;
  body : Payload
}.

(** [res.status(s).json(b)] *)
Definition json (s : Z) (b : Payload) : Response :=
  {| status := s; body := b |}.

(** ** Handlers of the booking routes *)

(** [app.get('/bookings4', ...)] *)
Definition get_bookings4 : Async Response :=
  try_catch
    (result <- pool_query SelectBookings ;;
     ret (json 200 (RowsBody (rows result))))
    (fun err =>
       print (ConsoleError "Error fetching bookings from bookings4 table:" err) ;;;
       ret (json 500 (ErrorBody "Failed to retrieve bookings from the database."))).

(** [app.post('/bookings4', ...)] *)
Definition post_bookings4 (body : Obj) : Async Response :=
  let service := get body "service" in
  let duration := get body "duration" in
  let price := get body "price" in
  let name := get body "name" in
  let phone := get body "phone" in
  let datetime := get body "datetime" in
  if not_ service || not_ duration || not_ price || not_ name
     || not_ phone || not_ datetime
  then ret (json 400 (ErrorBody "All booking fields are required."))
  else
    try_catch
      (result <- pool_query
                   (InsertBooking service duration price name phone datetime) ;;
       ret (json 201 (RowBody (nth_error (rows result) 0))))
      (fun err =>
         print (ConsoleError "Error adding booking to bookings4 table:" err) ;;;
         ret (json 500 (ErrorBody "Failed to add booking to the database."))).

(** [app.delete('/bookings4/:id', ...)]; [id] is [req.params.id]. *)
Definition delete_bookings4 (id : string) : Async Response :=
  try_catch
    (result <- pool_query (DeleteBooking (JStr id)) ;;
     if Nat.eqb (rowCount result) 0
     then ret (json 404 (ErrorBody ("Booking with ID " ++ id ++ " not found.")))
     else ret (json 200 (MessageBody
                 ("Booking with ID " ++ id ++ " deleted successfully."))))
    (fun err =>
       print (ConsoleError "Error deleting booking from bookings4 table:" err) ;;;
       ret (json 500 (ErrorBody "Failed to delete booking from the database."))).

(** ** Simulated payment *)

(** What one run of a handler leaves behind: a response sent while it
    ran; a timer whose callback, [ms] milliseconds later, sends the
    response or throws (an exception thrown by a timer callback is
    caught by nobody and no response is sent); or an exception that
    escaped the handler, thrown by a synchronous handler or carried by
    the rejected promise of an [async] one: the handler has sent
    nothing, and what the client receives is left to Express.  An
    uncaught exception ends the Node process; whether the process is
    still there to run the next handler is not part of this model,
    which describes each run and what it does to the store. *)
Inductive Completion : Type :=
| Responds (r : Response)
| Throws (e : Exception).

Inductive Reply : Type :=
| Sent (r : Response)
| Timer (ms : Z) (callback : Completion)
| Escaped (e : Exception).

(** The identifiers visible inside the callback of [setTimeout],
    innermost scope first: the constants and parameters of the handler,
    the constants of the module, the bindings of the module wrapper and
    the globals the file uses. *)
Definition initiate_scope (amount serviceName bookingId : JsValue)
  : list (string * Binding) :=
  [ ("amount", Value amount); ("serviceName", Value serviceName);
    ("bookingId", Value bookingId); ("req", HostObject); ("res", HostObject);
    ("express", HostObject); ("Pool", HostObject); ("cors", HostObject);
    ("app", HostObject); ("PORT", HostObject); ("pool", HostObject);
    ("exports", HostObject); ("require", HostObject); ("module", HostObject);
    ("__filename", HostObject); ("__dirname", HostObject);
    ("process", HostObject); ("console", HostObject);
    ("setTimeout", HostObject) ].

(** Evaluation of an identifier reference. *)
Fixpoint resolve (scope : list (string * Binding)) (x : string)
  : Exception + Binding :=
  match scope with
  | [] => inl (ReferenceError x)
  | (y, b) :: scope' => if String.eqb y x then inr b else resolve scope' x
  end.

(** The callback passed to [setTimeout]: the properties of the object
    literal are evaluated in order, then the response is sent. *)
Definition initiate_callback (scope : list (string * Binding)) : Completion :=
  match resolve scope "simulatedQrCodeUrl" with
  | inl e => Throws e
  | inr qrCodeUrl =>
      match resolve scope "transactionId" with
      | inl e => Throws e
      | inr transactionId =>
          Responds
            (json 200
               (InitiationBody
                  "Payment initiation successful (simulated). Scan QR to complete."
                  qrCodeUrl transactionId "pending"))
      end
  end.

(** [app.post('/api/payments/initiate', ...)]; the handler is not
    [async] and calls no store function. *)
Definition payments_initiate (body : Obj) (w : World) : Reply * World :=
  let amount := get body "amount" in
  let serviceName := get body "serviceName" in
  let bookingId := get body "bookingId" in
  if not_ amount || not_ serviceName || not_ bookingId
  then (Sent (json 400 (ErrorBody
          "Payment amount, service name, and booking ID are required to initiate payment.")),
        w)
  else
    match ToString bookingId, ToString serviceName, ToString amount with
    | inr b, inr s, inr a =>
        (Timer 1000
           (initiate_callback (initiate_scope amount serviceName bookingId)),
         {| db := db w; issued := issued w;
            console :=
              (console w ++
               [ConsoleLog ("Simulating payment initiation for Booking ID: "
                            ++ b ++ ", Service: " ++ s ++ ", Amount: "
                            ++ a)%string])%list |})
    | inl e, _, _ | inr _, inl e, _ | inr _, inr _, inl e => (Escaped e, w)
    end.

(** [app.post('/api/payments/confirm', ...)] *)
Definition payments_confirm (body : Obj) : Async Response :=
  let bookingId := get body "bookingId" in
  if not_ bookingId
  then ret (json 400 (ErrorBody "Booking ID is required to confirm payment."))
  else
    try_catch
      (result <- pool_query (UpdatePaymentStatus "completed" bookingId) ;;
       if Nat.eqb (rowCount result) 0
       then
         id <- eval (ToString bookingId) ;;
         print (ConsoleWarn
                  ("Attempted to confirm payment for non-existent booking ID: "
                   ++ id)) ;;;
         ret (json 404 (ErrorBody
                ("Booking with ID " ++ id
                 ++ " not found for payment confirmation.")))
       else
         id <- eval (ToString bookingId) ;;
         print (ConsoleLog
                  ("Payment confirmed for Booking ID: " ++ id
                   ++ ". Status updated to 'completed'.")) ;;;
         ret (json 200 (MessageBody
                ("Payment for booking ID " ++ id
                 ++ " confirmed successfully."))))
      (fun err =>
         print (ConsoleError "Error confirming payment for booking:" err) ;;;
         ret (json 500 (ErrorBody
                "Failed to update payment status in the database."))).

(** ** Handlers of the testimonial routes *)

(** [app.post('/api/testimonials', ...)] *)
Definition post_testimonials (body : Obj) : Async Response :=
  let reviewerName := get body "reviewerName" in
  let reviewerEmail := get body "reviewerEmail" in
  let reviewTitle := get body "reviewTitle" in
  let reviewText := get body "reviewText" in
  let rating := get body "rating" in
  let genuineOpinion := get body "genuineOpinion" in
  if not_ reviewerName || not_ reviewerEmail || not_ reviewText
     || not_ rating || is_undefined genuineOpinion
  then ret (json 400 (ErrorBody
              "All testimonial fields (except title) are required."))
  else
    out <- eval (outside rating 1 5) ;;
    if out : bool
    then ret (json 400 (ErrorBody "Rating must be between 1 and 5."))
    else
      try_catch
        (result <- pool_query
                     (InsertTestimonial reviewerName reviewerEmail reviewTitle
                        reviewText rating genuineOpinion) ;;
         ret (json 201 (RowBody (nth_error (rows result) 0))))
        (fun err =>
           print (ConsoleError "Error adding testimonial to database:" err) ;;;
           ret (json 500 (ErrorBody
                  "Failed to add testimonial to the database."))).

(** [app.get('/api/testimonials', ...)] *)
Definition get_testimonials : Async Response :=
  try_catch
    (result <- pool_query SelectTestimonials ;;
     ret (json 200 (RowsBody (rows result))))
    (fun err =>
       print (ConsoleError "Error fetching testimonials from database:" err) ;;;
       ret (json 500 (ErrorBody
              "Failed to retrieve testimonials from the database."))).

(** [app.delete('/api/testimonials/:id', ...)] *)
Definition delete_testimonials (id : string) : Async Response :=
  try_catch
    (result <- pool_query (DeleteTestimonial (JStr id)) ;;
     if Nat.eqb (rowCount result) 0
     then ret (json 404 (ErrorBody
                 ("Testimonial with ID " ++ id ++ " not found.")))
     else ret (json 200 (MessageBody
                 ("Testimonial with ID " ++ id ++ " deleted successfully."))))
    (fun err =>
       print (if String.eqb (message_of err) EmptyString
              then ConsoleError "Error deleting testimonial from database:" err
              else ConsoleErrorText "Error deleting testimonial from database:"
                     (message_of err)) ;;;
       ret (json 500 (ErrorBody
              ("Failed to delete testimonial from the database: "
               ++ or_else (message_of err) "Unknown database error")))).

(** ** The application *)

Inductive Request : Type :=
| GET_bookings4
| POST_bookings4 (body : Obj)
| DELETE_bookings4 (id : string)
| POST_payments_initiate (body : Obj)
| POST_payments_confirm (body : Obj)
| POST_testimonials (body : Obj)
| GET_testimonials
| DELETE_testimonials (id : string).

(** An [async] handler run to completion: the response it sent, or the
    rejection it let escape. *)
Definition run (h : Async Response) (o : Oracle) (w : World) : Reply * World :=
  match h o w with
  | (Fulfilled r, w') => (Sent r, w')
  | (Rejected e, w') => (Escaped e, w')
  end.

(** Routing of one request. *)
Definition app (req : Request) (o : Oracle) (w : World) : Reply * World :=
  match req with
  | GET_bookings4 => run get_bookings4 o w
  | POST_bookings4 body => run (post_bookings4 body) o w
  | DELETE_bookings4 id => run (delete_bookings4 id) o w
  | POST_payments_initiate body => payments_initiate body w
  | POST_payments_confirm body => run (payments_confirm body) o w
  | POST_testimonials body => run (post_testimonials body) o w
  | GET_testimonials => run get_testimonials o w
  | DELETE_testimonials id => run (delete_testimonials id) o w
  end.

(** The states of the service: those reached from the empty tables by
    runs of the handlers, one after the other.  The store outlives the
    process, so a run that ends in an uncaught exception does not end
    the sequence: the server may be started again on the same store. *)
Inductive reachable : World -> Prop :=
| reachable_initial : reachable initial_world
| reachable_step (req : Request) (o : Oracle) (w : World) :
    reachable w -> reachable (snd (app req o w)).

End Service.

(** ** Vocabulary of the properties *)

(** The laws of an ordering, as the store's [ORDER BY] expects them. *)
Definition total {A : Type} (leb : A -> A -> bool) : Prop :=
  forall a b, leb a b = true \/ leb b a = true.

Definition transitive {A : Type} (leb : A -> A -> bool) : Prop :=
  forall a b c, leb a b = true -> leb b c = true -> leb a c = true.

(** [descending leb a b]: [a] may be listed before [b]. *)
Definition descending {A : Type} (leb : A -> A -> bool) (a b : A) : Prop :=
  leb b a = true.

Section Vocabulary.
Context {P : Platform}.

(** The world after [pool.query q] left the tables as [d]. *)
Definition after_query (q : Statement) (d : Database) (w : World) : World :=
  {| db := d; issued := (issued w ++ [q])%list; console := console w |}.

(** The two outcomes of ToString. *)
Definition prints_or_fails (x : Exception + string) : Prop :=
  (exists s, x = inr s) \/ x = inl not_primitive.

(** The body has no property [k]. *)
Definition missing (body : Obj) (k : string) : Prop := get body k = JUndefined.

(** The fields that POST /bookings4 requires. *)
Definition booking_fields : list string :=
  ["service"; "duration"; "price"; "name"; "phone"; "datetime"].

(** Some row of [bookings4] has the key [k]. *)
Definition has_booking (k : Z) (d : Database) : Prop :=
  exists b, In b (bookings4 d) /\ Booking.id b = k.

(** The keys of [bookings4], one for each row. *)
Definition booking_ids (d : Database) : list Z :=
  map Booking.id (bookings4 d).

(** What the UPDATE of a payment confirmation does to one row. *)
Definition confirm_row (k : Z) (b : Booking.t) : Booking.t :=
  if Booking.id b =? k then Booking.set_payment_status "completed" b else b.

(** The handler sent a response of status [s]. *)
Definition responds_with (s : Z) (r : Reply) : Prop :=
  exists resp, r = Sent resp /\ status resp = s.

(** The statement a request passes to the store when it passes any. *)
Definition statement_of (req : Request) : option Statement :=
  match req with
  | GET_bookings4 => Some SelectBookings
  | POST_bookings4 body =>
      Some (InsertBooking (get body "service") (get body "duration")
              (get body "price") (get body "name") (get body "phone")
              (get body "datetime"))
  | DELETE_bookings4 id => Some (DeleteBooking (JStr id))
  | POST_payments_initiate _ => None
  | POST_payments_confirm body =>
      Some (UpdatePaymentStatus "completed" (get body "bookingId"))
  | POST_testimonials body =>
      Some (InsertTestimonial (get body "reviewerName")
              (get body "reviewerEmail") (get body "reviewTitle")
              (get body "reviewText") (get body "rating")
              (get body "genuineOpinion"))
  | GET_testimonials => Some SelectTestimonials
  | DELETE_testimonials id => Some (DeleteTestimonial (JStr id))
  end.

(** The two values of [payment_status]. *)
Definition pending_or_completed (b : Booking.t) : Prop :=
  Booking.payment_status b = "pending" \/ Booking.payment_status b = "completed".

(** What every reachable state of [bookings4] satisfies: the keys are
    pairwise distinct and below the next value of the sequence, and every
    status is one of the two. *)
Definition booking_invariant (d : Database) : Prop :=
  NoDup (booking_ids d)
  /\ (forall b, In b (bookings4 d) -> Booking.id b < bookings4_id_seq d)
  /\ (forall b, In b (bookings4 d) -> pending_or_completed b).

(** The first check of POST /api/testimonials:
    [!reviewerName || !reviewerEmail || !reviewText || !rating ||
    genuineOpinion === undefined]. *)
Definition testimonial_required (body : Obj) : bool :=
  not_ (get body "reviewerName") || not_ (get body "reviewerEmail")
  || not_ (get body "reviewText") || not_ (get body "rating")
  || is_undefined (get body "genuineOpinion").

(** Its second check: [rating < 1 || rating > 5]. *)
Definition rating_out_of_range (body : Obj) : Exception + bool :=
  outside (get body "rating") 1 5.

(** The other required fields pass the presence check. *)
Definition testimonial_others_present (body : Obj) : Prop :=
  truthy (get body "reviewerName") = true
  /\ truthy (get body "reviewerEmail") = true
  /\ truthy (get body "reviewText") = true
  /\ get body "genuineOpinion" <> JUndefined.

(** [n] is a number between 1 and 5, bounds included. *)
Definition in_rating_range (n : Number) : Prop :=
  match n with
  | Finite q => (1 <= q <= 5)%Q
  | _ => False
  end.

(** The message of the error with which [pool.query q] rejects. *)
Definition store_error (q : Statement) (o : Oracle) (w : World)
  : option string :=
  match fault o with
  | Some msg => Some msg
  | None =>
      match execute (clock o) q (db w) with
      | inl msg => Some msg
      | inr _ => None
      end
  end.

(** [part] occurs in [s]. *)
Definition includes (s part : string) : Prop :=
  exists pre post, s = pre ++ part ++ post.

(** The fixed text of the 500 response of a route. *)
Definition generic_500 (req : Request) : option string :=
  match req with
  | GET_bookings4 => Some "Failed to retrieve bookings from the database."
  | POST_bookings4 _ => Some "Failed to add booking to the database."
  | DELETE_bookings4 _ => Some "Failed to delete booking from the database."
  | POST_payments_initiate _ => None
  | POST_payments_confirm _ =>
      Some "Failed to update payment status in the database."
  | POST_testimonials _ => Some "Failed to add testimonial to the database."
  | GET_testimonials =>
      Some "Failed to retrieve testimonials from the database."
  | DELETE_testimonials _ => None
  end.

(** Some row of [testimonials] has the key [k]. *)
Definition has_testimonial (k : Z) (d : Database) : Prop :=
  exists t, In t (testimonials d) /\ Testimonial.id t = k.

(** The keys of [testimonials], one for each row. *)
Definition testimonial_ids (d : Database) : list Z :=
  map Testimonial.id (testimonials d).

(** The keys of [testimonials] are pairwise distinct and below the next
    value of the sequence. *)
Definition testimonial_invariant (d : Database) : Prop :=
  NoDup (testimonial_ids d)
  /\ (forall t, In t (testimonials d) ->
                Testimonial.id t < testimonials_id_seq d).

(** A booking row whose six client-supplied columns are truthy. *)
Definition valid_booking (b : Booking.t) : Prop :=
  truthy (Booking.service b) = true
  /\ truthy (Booking.duration b) = true
  /\ truthy (Booking.price b) = true
  /\ truthy (Booking.name b) = true
  /\ truthy (Booking.phone b) = true
  /\ truthy (Booking.datetime b) = true.

(** A testimonial row that passes the two checks of its creation. *)
Definition valid_testimonial (t : Testimonial.t) : Prop :=
  truthy (Testimonial.reviewer_name t) = true
  /\ truthy (Testimonial.reviewer_email t) = true
  /\ truthy (Testimonial.review_text t) = true
  /\ truthy (Testimonial.rating t) = true
  /\ outside (Testimonial.rating t) 1 5 = inr false.

(** The routes whose statement writes to [bookings4]. *)
Definition writes_bookings (req : Request) : bool :=
  match req with
  | POST_bookings4 _ | DELETE_bookings4 _ | POST_payments_confirm _ => true
  | _ => false
  end.

(** The routes whose statement writes to [testimonials]. *)
Definition writes_testimonials (req : Request) : bool :=
  match req with
  | POST_testimonials _ | DELETE_testimonials _ => true
  | _ => false
  end.

(** A line printed by [console.error]. *)
Definition error_line (l : ConsoleLine) : Prop :=
  match l with
  | ConsoleError _ _ | ConsoleErrorText _ _ => True
  | _ => False
  end.

(** [b'] is [b], or [b] with its payment completed. *)
Definition same_or_completed (b b' : Booking.t) : Prop :=
  b' = b \/ b' = Booking.set_payment_status "completed" b.

End Vocabulary.

(** ** A platform on which the examples run *)

(** It prints and reads integer numerals (the examples print no other
    number), reads a key from an integral Number or from a string of
    decimal digits, and orders the values of [datetime] as text (the
    order of ISO 8601 timestamps written in one layout). *)
Definition example_NumberToString (n : Number) : string :=
  match n with
  | NaN => "NaN"
  | Infinity false => "Infinity"
  | Infinity true => "-Infinity"
  | Finite q => DecimalString.NilZero.string_of_int (Z.to_int (Qnum q / QDen q))
  end.

Definition example_StringToNumber (s : string) : Number :=
  match DecimalString.NilZero.uint_of_string s with
  | Some u => of_Z (Z.of_uint u)
  | None => if String.eqb s EmptyString then of_Z 0 else NaN
  end.

Definition example_id_in (v : JsValue) : string + Z :=
  match v with
  | JNum (Finite q) =>
      if (QDen q =? 1)%Z then inr (Qnum q)
      else inl "invalid input syntax for type integer"
  | JStr s =>
      match DecimalString.NilZero.uint_of_string s with
      | Some u => inr (Z.of_uint u)
      | None => inl "invalid input syntax for type integer"
      end
  | _ => inl "invalid input syntax for type integer"
  end.

Definition datetime_text (v : JsValue) : string :=
  match v with
  | JStr s => s
  | _ => EmptyString
  end.

Definition example_datetime_leb (a b : JsValue) : bool :=
  String.leb (datetime_text a) (datetime_text b).

Definition example_platform : Platform :=
  {| NumberToString := example_NumberToString;
     StringToNumber := example_StringToNumber;
     id_in := example_id_in;
     datetime_leb := example_datetime_leb |}.

Definition example_oracle : Oracle := {| fault := None; clock := 1735725600 |}.

Definition example_failure : Oracle :=
  {| fault := Some "connection terminated unexpectedly"; clock := 1735725600 |}.

(** The booking of the scenario of the specification. *)
Definition example_booking : Obj :=
  [ ("service", JStr "Massage"); ("duration", JStr "60m");
    ("price", JNum (of_Z 50)); ("name", JStr "Ana");
    ("phone", JStr "555-1234"); ("datetime", JStr "2025-01-01T10:00:00Z") ].

(** The state after that booking was created in the empty tables. *)
Definition example_world : World :=
  snd (app (P := example_platform) (POST_bookings4 example_booking)
         example_oracle initial_world).

Definition example_row : Booking.t :=
  {| Booking.id := 1;
     Booking.service := JStr "Massage";
     Booking.duration := JStr "60m";
     Booking.price := JNum (of_Z 50);
     Booking.name := JStr "Ana";
     Booking.phone := JStr "555-1234";
     Booking.datetime := JStr "2025-01-01T10:00:00Z";
     Booking.payment_status := "pending";
     Booking.booking_time := 1735725600 |}.

Definition example_confirmation : Obj := [("bookingId", JNum (of_Z 1))].

Definition example_testimonial (rating genuineOpinion : JsValue) : Obj :=
  [ ("reviewerName", JStr "Ana"); ("reviewerEmail", JStr "ana@example.org");
    ("reviewText", JStr "Very relaxing."); ("rating", rating);
    ("genuineOpinion", genuineOpinion) ].

(** The state after a testimonial of rating 5 was created in the empty
    tables, and the row it created. *)
Definition example_review_world : World :=
  snd (app (P := example_platform)
         (POST_testimonials (example_testimonial (JNum (of_Z 5)) (JBool true)))
         example_oracle initial_world).

Definition example_review : Testimonial.t :=
  {| Testimonial.id := 1;
     Testimonial.reviewer_name := JStr "Ana";
     Testimonial.reviewer_email := JStr "ana@example.org";
     Testimonial.review_title := JNull;
     Testimonial.review_text := JStr "Very relaxing.";
     Testimonial.rating := JNum (of_Z 5);
     Testimonial.genuine_opinion := JBool true;
     Testimonial.created_at := 1735725600 |}.

(** An object that no conversion turns into a primitive. *)
Definition example_unprintable : JsValue := JObj [("toString", JNum (of_Z 1))].

(** * Properties *)

(** ** Numbers *)

Lemma Qlt_bool_iff (x y : Q) : Qlt_bool x y = true <-> (x < y)%Q.
Proof. unfold Qlt_bool, Qlt. apply Z.ltb_lt. Qed.

(** ** Ordering *)

Lemma insert_desc_perm {A : Type} (leb : A -> A -> bool) (a : A) (l : list A) :
  Permutation (a :: l) (insert_desc leb a l).
Proof.
  induction l as [| x l IH]; simpl.
  - apply Permutation_refl.
  - destruct (leb x a).
    + apply Permutation_refl.
    + eapply perm_trans; [apply perm_swap |].
      now apply perm_skip.
Qed.

Lemma order_by_desc_perm {A : Type} (leb : A -> A -> bool) (l : list A) :
  Permutation l (order_by_desc leb l).
Proof.
  induction l as [| x l IH]; simpl.
  - constructor.
  - eapply perm_trans; [| apply insert_desc_perm].
    now apply perm_skip.
Qed.

Lemma insert_desc_hd {A : Type} (leb : A -> A -> bool) (a x : A) (l : list A) :
  descending leb x a -> HdRel (descending leb) x l ->
  HdRel (descending leb) x (insert_desc leb a l).
Proof.
  intros Hxa Hl.
  destruct l as [| y l]; simpl.
  - now constructor.
  - destruct (leb y a); constructor; trivial.
    now inversion Hl.
Qed.

Lemma insert_desc_sorted {A : Type} (leb : A -> A -> bool) (a : A) (l : list A) :
  total leb -> Sorted (descending leb) l ->
  Sorted (descending leb) (insert_desc leb a l).
Proof.
  intros Htot Hs.
  induction Hs as [| x l Hs IH Hhd]; simpl.
  - repeat constructor.
  - destruct (leb x a) eqn:E.
    + constructor; [now constructor |].
      constructor. exact E.
    + constructor; [exact IH |].
      apply insert_desc_hd; trivial.
      unfold descending.
      destruct (Htot x a) as [H | H]; congruence.
Qed.

Lemma order_by_desc_sorted {A : Type} (leb : A -> A -> bool) (l : list A) :
  total leb -> Sorted (descending leb) (order_by_desc leb l).
Proof.
  intros Htot.
  induction l as [| x l IH]; simpl.
  - constructor.
  - now apply insert_desc_sorted.
Qed.

Lemma order_by_desc_strongly_sorted {A : Type} (leb : A -> A -> bool)
      (l : list A) :
  total leb -> transitive leb ->
  StronglySorted (descending leb) (order_by_desc leb l).
Proof.
  intros Htot Htr.
  apply Sorted_StronglySorted.
  - intros a b c Hab Hbc. unfold descending in *. eauto.
  - now apply order_by_desc_sorted.
Qed.

Lemma string_compare_lt_trans (a b c : string) :
  String.compare a b = Lt -> String.compare b c = Lt -> String.compare a c = Lt.
Proof.
  assert (E : forall s t, String.compare s t = OrdersEx.String_as_OT.compare s t).
  { induction s; destruct t; simpl; auto. }
  rewrite !E.
  intros Hab Hbc.
  exact (@RelationClasses.StrictOrder_Transitive _ _
           OrdersEx.String_as_OT.lt_strorder a b c Hab Hbc).
Qed.

Lemma string_leb_trans (a b c : string) :
  String.leb a b = true -> String.leb b c = true -> String.leb a c = true.
Proof.
  unfold String.leb.
  destruct (String.compare a b) eqn:Eab; try discriminate;
    destruct (String.compare b c) eqn:Ebc; try discriminate; intros _ _.
  - apply String.compare_eq_iff in Eab, Ebc. subst.
    destruct (String.compare c c) eqn:E; trivial.
    assert (H := String.compare_antisym c c). rewrite E in H. discriminate.
  - apply String.compare_eq_iff in Eab. subst. now rewrite Ebc.
  - apply String.compare_eq_iff in Ebc. subst. now rewrite Eab.
  - now rewrite (string_compare_lt_trans a b c).
Qed.

Lemma example_datetime_total : total (datetime_leb (Platform := example_platform)).
Proof. intros a b. apply String.leb_total. Qed.

Lemma example_datetime_transitive :
  transitive (datetime_leb (Platform := example_platform)).
Proof. intros a b c. apply string_leb_trans. Qed.

(** ** Running a statement *)

Section Properties.
Context {P : Platform}.

Lemma pool_query_fulfilled (q : Statement) (o : Oracle) (w : World)
      (r : QueryResult) (d' : Database) :
  fault o = None -> execute (clock o) q (db w) = inr (r, d') ->
  pool_query q o w = (Fulfilled r, after_query q d' w).
Proof.
  intros Hf He. unfold pool_query. now rewrite Hf, He.
Qed.

Lemma pool_query_fault (q : Statement) (o : Oracle) (w : World) (msg : string) :
  fault o = Some msg ->
  pool_query q o w = (Rejected (StoreError msg), after_query q (db w) w).
Proof.
  intros Hf. unfold pool_query. now rewrite Hf.
Qed.

(** Whatever the store answers, [pool.query] records the statement and
    either leaves the tables alone or installs the tables computed by
    [execute]. *)
Lemma pool_query_cases (q : Statement) (o : Oracle) (w : World) :
  (exists msg, pool_query q o w
               = (Rejected (StoreError msg), after_query q (db w) w)) \/
  (exists r d', fault o = None /\ execute (clock o) q (db w) = inr (r, d') /\
                pool_query q o w = (Fulfilled r, after_query q d' w)).
Proof.
  unfold pool_query.
  destruct (fault o) as [msg |].
  - left. now exists msg.
  - destruct (execute (clock o) q (db w)) as [msg | [r d']].
    + left. now exists msg.
    + right. now exists r, d'.
Qed.

Ltac handler :=
  unfold app, run, get_bookings4, post_bookings4, delete_bookings4,
    payments_initiate, payments_confirm, post_testimonials, get_testimonials,
    delete_testimonials, try_catch, bind, ret, eval, print, json.

(** ** Payment initiation *)

Lemma initiate_callback_throws (amount serviceName bookingId : JsValue) :
  initiate_callback (initiate_scope amount serviceName bookingId)
  = Throws (ReferenceError "simulatedQrCodeUrl").
Proof. reflexivity. Qed.

Lemma join_cases (l : list (Exception + string)) :
  Forall prints_or_fails l -> prints_or_fails (join l).
Proof.
  unfold prints_or_fails.
  induction 1 as [| x l Hx Hl IH]; simpl; eauto.
  destruct Hx as [(s & ->) | ->]; auto.
  destruct l; eauto.
  destruct IH as [(t & ->) | ->]; eauto.
Qed.

(** The only error of ToString is the TypeError of an object that
    cannot be converted. *)
Lemma ToString_cases : forall v : JsValue, prints_or_fails (ToString v).
Proof.
  fix IH 1. intros v.
  destruct v as [| | [|] | n | s | l | props]; simpl;
    try (clear IH; left; eexists; reflexivity).
  - apply join_cases.
    induction l as [| x l IHl]; constructor; [| exact IHl].
    assert (Hx := IH x). clear IH.
    destruct x; try exact Hx; left; eexists; reflexivity.
  - clear IH. destruct (has_own_property props "toString").
    + now right.
    + left. eexists. reflexivity.
Qed.

(** A request that passes validation never gets a response: either the
    log line cannot be printed and the handler throws, or the callback
    of the timer throws before the response is sent. *)
Lemma initiate_valid_request_throws (body : Obj) (o : Oracle) (w : World) :
  truthy (get body "amount") = true ->
  truthy (get body "serviceName") = true ->
  truthy (get body "bookingId") = true ->
  fst (app (POST_payments_initiate body) o w)
  = Timer 1000 (Throws (ReferenceError "simulatedQrCodeUrl"))
  \/ fst (app (POST_payments_initiate body) o w) = Escaped not_primitive.
Proof.
  intros Ha Hs Hb. handler. unfold not_. rewrite Ha, Hs, Hb. simpl.
  destruct (ToString_cases (get body "bookingId")) as [(b & ->) | ->]; auto.
  destruct (ToString_cases (get body "serviceName")) as [(s & ->) | ->]; auto.
  destruct (ToString_cases (get body "amount")) as [(a & ->) | ->]; auto.
Qed.

(** C1, at the request [{amount: "$50", serviceName: "Massage",
    bookingId: 1}], in which the three fields are present: one second
    after the handler returned, the timer callback throws
    [ReferenceError: simulatedQrCodeUrl is not defined] while it builds
    the body, so no response (and no 200) is ever sent. *)
Theorem initiate_payment_sends_no_response (o : Oracle) (w : World) :
  fst (app (POST_payments_initiate
              [("amount", JStr "$50"); ("serviceName", JStr "Massage");
               ("bookingId", JNum (of_Z 1))]) o w)
  = Timer 1000 (Throws (ReferenceError "simulatedQrCodeUrl")).
Proof. reflexivity. Qed.

(** C8: handling POST /api/payments/initiate, whatever the request,
    leaves the tables as they were and passes no statement to the store
    (nothing is persisted); and when amount, serviceName or bookingId is
    missing, the response is 400. *)
Theorem initiate_payment_frame (body : Obj) (o : Oracle) (w : World) :
  db (snd (app (POST_payments_initiate body) o w)) = db w /\
  issued (snd (app (POST_payments_initiate body) o w)) = issued w /\
  (missing body "amount" \/ missing body "serviceName"
   \/ missing body "bookingId" ->
   fst (app (POST_payments_initiate body) o w)
   = Sent (json 400 (ErrorBody
       "Payment amount, service name, and booking ID are required to initiate payment."))).
Proof.
  handler.
  destruct (not_ (get body "amount") || not_ (get body "serviceName")
            || not_ (get body "bookingId")) eqn:E; simpl.
  - intuition.
  - apply orb_false_iff in E. destruct E as [E Hb].
    apply orb_false_iff in E. destruct E as [Ha Hs].
    assert (Hpresent : ~ (missing body "amount" \/ missing body "serviceName"
                          \/ missing body "bookingId")).
    { unfold missing. intros [H | [H | H]]; rewrite H in *; discriminate. }
    destruct (ToString (get body "bookingId")),
             (ToString (get body "serviceName")),
             (ToString (get body "amount")); simpl; tauto.
Qed.

(** ** Booking creation *)

Lemma pg_value_truthy (v : JsValue) : truthy v = true -> pg_value v = v.
Proof. destruct v; simpl; trivial; discriminate. Qed.

Lemma booking_validation (body : Obj) :
  not_ (get body "service") || not_ (get body "duration")
  || not_ (get body "price") || not_ (get body "name")
  || not_ (get body "phone") || not_ (get body "datetime") = false
  <-> forall k, In k booking_fields -> truthy (get body k) = true.
Proof.
  unfold not_, booking_fields. split.
  - intros H k Hk.
    repeat (apply orb_false_iff in H; destruct H as [H ?]).
    simpl in Hk.
    repeat (destruct Hk as [<- | Hk]; [now apply negb_false_iff |]).
    contradiction.
  - intros H.
    rewrite !(H _) by (simpl; tauto). reflexivity.
Qed.

(** C4: POST /bookings4.  When one of the six fields is missing or
    falsy, the response is 400 and the world is left as it was, so no
    statement was passed to the store.  Otherwise, when the store does
    not fail, one row is appended to [bookings4] and the response is 201
    with that row: its id is the one the store generated, its six fields
    are the values of the request and its [payment_status] is
    ['pending']. *)
Theorem create_booking_contract (body : Obj) (o : Oracle) (w : World) :
  ((exists k, In k booking_fields /\ truthy (get body k) = false) ->
   app (POST_bookings4 body) o w
   = (Sent (json 400 (ErrorBody "All booking fields are required.")), w))
  /\
  ((forall k, In k booking_fields -> truthy (get body k) = true) ->
   fault o = None ->
   exists b : Booking.t,
     fst (app (POST_bookings4 body) o w)
     = Sent (json 201 (RowBody (Some (BookingRow b))))
     /\ bookings4 (db (snd (app (POST_bookings4 body) o w)))
        = (bookings4 (db w) ++ [b])%list
     /\ Booking.id b = bookings4_id_seq (db w)
     /\ Booking.service b = get body "service"
     /\ Booking.duration b = get body "duration"
     /\ Booking.price b = get body "price"
     /\ Booking.name b = get body "name"
     /\ Booking.phone b = get body "phone"
     /\ Booking.datetime b = get body "datetime"
     /\ Booking.payment_status b = "pending").
Proof.
  split.
  - intros (k & Hk & Hf).
    handler.
    destruct (not_ (get body "service") || not_ (get body "duration")
              || not_ (get body "price") || not_ (get body "name")
              || not_ (get body "phone") || not_ (get body "datetime")) eqn:E.
    + reflexivity.
    + rewrite (proj1 (booking_validation body) E k Hk) in Hf. discriminate.
  - intros Hall Hf.
    assert (E := proj2 (booking_validation body) Hall).
    handler. rewrite E.
    unfold pool_query. rewrite Hf. simpl.
    eexists. split; [reflexivity |]. split; [reflexivity |].
    simpl. rewrite !pg_value_truthy by (apply Hall; simpl; tauto).
    repeat split.
Qed.

(** ** Rows and keys *)

Lemma filter_key_absent (k : Z) (l : list Booking.t) :
  (forall b, In b l -> Booking.id b <> k) ->
  filter (fun b => Booking.id b =? k) l = []
  /\ filter (fun b => negb (Booking.id b =? k)) l = l
  /\ map (fun b => if Booking.id b =? k
                   then Booking.set_payment_status "completed" b else b) l = l.
Proof.
  induction l as [| x l IH]; intros H; simpl.
  - auto.
  - assert (Hx : (Booking.id x =? k) = false)
      by (apply Z.eqb_neq, H; now left).
    rewrite Hx. simpl.
    destruct IH as (-> & -> & ->); auto.
    intros b Hb. apply H. now right.
Qed.

Lemma filter_key_present (k : Z) (l : list Booking.t) :
  (exists b, In b l /\ Booking.id b = k) ->
  List.length (filter (fun b => Booking.id b =? k) l) <> 0%nat.
Proof.
  intros (b & Hb & Hk) E.
  apply length_zero_iff_nil in E.
  assert (Hin : In b (filter (fun b => Booking.id b =? k) l))
    by (apply filter_In; split; trivial; now apply Z.eqb_eq).
  rewrite E in Hin. contradiction.
Qed.

Lemma no_booking_after_delete (k : Z) (l : list Booking.t) (b : Booking.t) :
  In b (filter (fun b => negb (Booking.id b =? k)) l) -> Booking.id b <> k.
Proof.
  intros H. apply filter_In in H. destruct H as [_ H].
  apply negb_true_iff in H. now apply Z.eqb_neq.
Qed.

Lemma not_has_booking (k : Z) (d : Database) :
  ~ has_booking k d -> forall b, In b (bookings4 d) -> Booking.id b <> k.
Proof.
  intros H b Hb E. apply H. now exists b.
Qed.

Lemma same_key_same_row (l : list Booking.t) (a b : Booking.t) :
  NoDup (map Booking.id l) -> In a l -> In b l ->
  Booking.id a = Booking.id b -> a = b.
Proof.
  induction l as [| x l IH]; simpl; intros Hnd Ha Hb E.
  - contradiction.
  - inversion Hnd as [| ? ? Hx Hl]; subst.
    destruct Ha as [-> | Ha], Hb as [-> | Hb]; trivial.
    + exfalso. apply Hx. rewrite E. now apply in_map.
    + exfalso. apply Hx. rewrite <- E. now apply in_map.
    + now apply IH.
Qed.

(** ** Booking deletion *)

(** C6: DELETE /bookings4/:id.  When the store rejects the statement,
    for a reason of its own or because it cannot read the path
    parameter [id] as a key (a non-numeric id before an integer
    column), the response is 500 with the fixed text of the route and
    the tables are as they were, whether or not a row has that id.
    When the store executes the statement and reads [id] as the key
    [k]: if no row has that key, the response is 404, its message
    contains [id], and the tables are as they were; if a row has it, the
    response is 200 with the success message, the rows of key [k] are
    gone and the others stay, a following GET /bookings4 lists no row of
    key [k], and a following DELETE of the same id answers 404. *)
Theorem delete_booking_contract (id : string) (k : Z) (msg : string)
        (o o1 o2 : Oracle) (w : World) :
  (store_error (DeleteBooking (JStr id)) o w = Some msg ->
   fst (app (DELETE_bookings4 id) o w)
   = Sent (json 500 (ErrorBody "Failed to delete booking from the database."))
   /\ db (snd (app (DELETE_bookings4 id) o w)) = db w)
  /\
  (fault o = None -> id_in (JStr id) = inr k ->
   (~ has_booking k (db w) ->
    fst (app (DELETE_bookings4 id) o w)
    = Sent (json 404 (ErrorBody ("Booking with ID " ++ id ++ " not found.")))
    /\ db (snd (app (DELETE_bookings4 id) o w)) = db w)
   /\
   (has_booking k (db w) ->
    fst (app (DELETE_bookings4 id) o w)
    = Sent (json 200 (MessageBody
              ("Booking with ID " ++ id ++ " deleted successfully.")))
    /\ bookings4 (db (snd (app (DELETE_bookings4 id) o w)))
       = filter (fun b => negb (Booking.id b =? k)) (bookings4 (db w))
    /\ (fault o1 = None ->
        exists l : list Booking.t,
          fst (app GET_bookings4 o1 (snd (app (DELETE_bookings4 id) o w)))
          = Sent (json 200 (RowsBody (map BookingRow l)))
          /\ forall b, In b l -> Booking.id b <> k)
    /\ (fault o2 = None ->
        fst (app (DELETE_bookings4 id) o2 (snd (app (DELETE_bookings4 id) o w)))
        = Sent (json 404 (ErrorBody
                  ("Booking with ID " ++ id ++ " not found.")))))).
Proof.
  split.
  { unfold store_error. handler. unfold pool_query.
    destruct (fault o) as [m |]; simpl.
    - intros _. split; reflexivity.
    - destruct (id_in (JStr id)) as [m | k0]; simpl.
      + intros _. split; reflexivity.
      + discriminate. }
  intros Hf Hk. split.
  - intros Hno.
    destruct (filter_key_absent k (bookings4 (db w)) (not_has_booking k _ Hno))
      as (E1 & E2 & _).
    handler. unfold pool_query. rewrite Hf. simpl. rewrite Hk, E1, E2.
    simpl. split; trivial. now destruct (db w).
  - intros Hhas.
    assert (Hlen := filter_key_present k _ Hhas).
    handler. unfold pool_query. rewrite Hf. simpl. rewrite Hk.
    match goal with
    | |- context [Nat.eqb ?n 0] => destruct (Nat.eqb_spec n 0) as [E | _]
    end; [contradiction |].
    simpl. split; [reflexivity |]. split; [reflexivity |]. split.
    + intros Hf1. rewrite Hf1. simpl.
      eexists. split; [reflexivity |].
      intros b Hb.
      apply (Permutation_in _ (Permutation_sym (order_by_desc_perm _ _))) in Hb.
      now apply no_booking_after_delete in Hb.
    + intros Hf2. rewrite Hf2. simpl.
      set (l' := filter (fun b => negb (Booking.id b =? k)) (bookings4 (db w))).
      destruct (filter_key_absent k l') as (E1 & _).
      { intros b. apply no_booking_after_delete. }
      now rewrite E1.
Qed.

(** ** Payment confirmation *)

Lemma confirm_row_id (k : Z) (b : Booking.t) :
  Booking.id (confirm_row k b) = Booking.id b.
Proof. unfold confirm_row. now destruct (Booking.id b =? k). Qed.

Lemma confirm_row_idempotent (k : Z) (b : Booking.t) :
  confirm_row k (confirm_row k b) = confirm_row k b.
Proof.
  unfold confirm_row.
  destruct (Booking.id b =? k) eqn:E; simpl; now rewrite E.
Qed.

Lemma confirm_row_completed (k : Z) (b : Booking.t) :
  Booking.id b = k -> Booking.payment_status (confirm_row k b) = "completed".
Proof.
  intros E. unfold confirm_row.
  apply Z.eqb_eq in E. now rewrite E.
Qed.

Lemma has_booking_confirmed (k : Z) (l : list Booking.t) :
  (exists b, In b l /\ Booking.id b = k) ->
  exists b, In b (map (confirm_row k) l) /\ Booking.id b = k.
Proof.
  intros (b & Hb & E).
  exists (confirm_row k b). split.
  - now apply in_map.
  - now rewrite confirm_row_id.
Qed.

(** C3, as the handler has it: the guard [!bookingId] answers 400 to
    every falsy [bookingId] (absent, [null], [false], [0], the empty
    string) without touching the world.  For a truthy [bookingId] that
    prints as [text] (as every string and number does) and that the
    store reads as the key [k], when the store executes the statement:
    if no row has the key, the response is 404 and the tables are as
    they were; if a row has it, the response is 200 and every row of
    that key has [payment_status] ['completed'], whatever it was before,
    the other rows being untouched; a second confirmation of the same id
    answers 200 again and leaves the tables as the first one left
    them. *)
Theorem confirm_payment_contract (body : Obj) (k : Z) (text : string)
        (o o' : Oracle) (w : World) :
  (truthy (get body "bookingId") = false ->
   app (POST_payments_confirm body) o w
   = (Sent (json 400 (ErrorBody "Booking ID is required to confirm payment.")),
      w))
  /\
  (truthy (get body "bookingId") = true ->
   ToString (get body "bookingId") = inr text ->
   fault o = None -> id_in (get body "bookingId") = inr k ->
   (~ has_booking k (db w) ->
    fst (app (POST_payments_confirm body) o w)
    = Sent (json 404 (ErrorBody
              ("Booking with ID " ++ text
               ++ " not found for payment confirmation.")))
    /\ db (snd (app (POST_payments_confirm body) o w)) = db w)
   /\
   (has_booking k (db w) ->
    fst (app (POST_payments_confirm body) o w)
    = Sent (json 200 (MessageBody
              ("Payment for booking ID " ++ text ++ " confirmed successfully.")))
    /\ bookings4 (db (snd (app (POST_payments_confirm body) o w)))
       = map (confirm_row k) (bookings4 (db w))
    /\ (forall b, In b (bookings4 (db (snd (app (POST_payments_confirm body) o w)))) ->
                  Booking.id b = k -> Booking.payment_status b = "completed")
    /\ (fault o' = None ->
        fst (app (POST_payments_confirm body) o'
                 (snd (app (POST_payments_confirm body) o w)))
        = Sent (json 200 (MessageBody
                  ("Payment for booking ID " ++ text
                   ++ " confirmed successfully.")))
        /\ db (snd (app (POST_payments_confirm body) o'
                        (snd (app (POST_payments_confirm body) o w))))
           = db (snd (app (POST_payments_confirm body) o w))))).
Proof.
  split.
  - intros Hf. handler. unfold not_. now rewrite Hf.
  - intros Ht Hs Hf Hk. split.
    + intros Hno.
      destruct (filter_key_absent k (bookings4 (db w)) (not_has_booking k _ Hno))
        as (E1 & _ & E3).
      handler. unfold not_, pool_query. rewrite Ht. cbn [negb]. rewrite Hf.
      simpl. rewrite Hk, E1, E3, Hs. simpl. split; trivial. now destruct (db w).
    + intros Hhas.
      assert (Hlen := filter_key_present k _ Hhas).
      assert (Hlen' := filter_key_present k _ (has_booking_confirmed k _ Hhas)).
      handler. unfold not_, pool_query. rewrite Ht. cbn [negb]. rewrite Hf.
      simpl. rewrite Hk, Hs.
      rewrite !length_map.
      match goal with
      | |- context [Nat.eqb ?n 0] => destruct (Nat.eqb_spec n 0) as [E | _]
      end; [contradiction |].
      simpl. fold (confirm_row k).
      split; [reflexivity |]. split; [reflexivity |]. split.
      * intros b Hb Hid. apply in_map_iff in Hb.
        destruct Hb as (b0 & <- & _).
        apply confirm_row_completed. now rewrite confirm_row_id in Hid.
      * intros Hf'. rewrite Hf'. simpl. rewrite ?length_map.
        match goal with
        | |- context [Nat.eqb ?n 0] => destruct (Nat.eqb_spec n 0) as [E | _]
        end; [contradiction |].
        simpl. split; [reflexivity |].
        f_equal. rewrite map_map. apply map_ext. apply confirm_row_idempotent.
Qed.

(** ** One request, one statement *)

Ltac query q o w :=
  destruct (pool_query_cases q o w)
    as [[?msg ->] | (?r & ?d' & ?Hf & ?He & ->)]; simpl.

Ltac row_count :=
  match goal with
  | |- context [Nat.eqb (rowCount ?r) 0] => destruct (Nat.eqb (rowCount r) 0)
  end; simpl.

Ltac validation :=
  match goal with
  | |- context [if ?c then _ else _] => destruct c; simpl
  end.

Ltac evaluation :=
  match goal with
  | |- context [match ?x with inl _ => _ | inr _ => _ end] =>
      destruct x as [?e | ?a]; simpl
  end.

Lemma outside_cases (v : JsValue) (lo hi : Z) :
  (exists b, outside v lo hi = inr b) \/ outside v lo hi = inl not_primitive.
Proof.
  assert (H : (exists n, ToNumber v = inr n) \/ ToNumber v = inl not_primitive).
  { destruct v as [| | [|] | n | s | l | props]; simpl; eauto.
    - destruct (ToString_cases (JArr l)) as [(s & E) | E];
        simpl in E; rewrite E; eauto.
    - destruct (ToString_cases (JObj props)) as [(s & E) | E];
        simpl in E; rewrite E; eauto. }
  unfold outside, lt_lit, gt_lit.
  destruct H as [(n & ->) | ->]; auto.
  destruct (number_lt n (of_Z lo)); eauto.
Qed.

(** The tables after a request are the tables before it, or those that
    the store computed for the statement of the request. *)
Lemma app_database (req : Request) (o : Oracle) (w : World) :
  db (snd (app req o w)) = db w \/
  exists q r, statement_of req = Some q /\
              execute (clock o) q (db w)
              = inr (r, db (snd (app req o w))).
Proof.
  destruct req as [| body | id | body | body | body | | id]; handler;
    cbn [statement_of].
  - query SelectBookings o w; eauto.
  - validation; auto.
    match goal with |- context [pool_query ?q o w] => query q o w end; eauto.
  - query (DeleteBooking (JStr id)) o w; auto.
    row_count; eauto.
  - validation; auto.
    destruct (ToString (get body "bookingId")),
             (ToString (get body "serviceName")),
             (ToString (get body "amount")); auto.
  - validation; auto.
    match goal with |- context [pool_query ?q o w] => query q o w end; auto.
    row_count; evaluation; eauto.
  - validation; auto. evaluation; auto. validation; auto.
    match goal with |- context [pool_query ?q o w] => query q o w end; eauto.
  - query SelectTestimonials o w; eauto.
  - query (DeleteTestimonial (JStr id)) o w; auto.
    row_count; eauto.
Qed.

(** A run of a handler ends with a response sent, unless a value that
    cannot be converted to a primitive makes the handler throw, or the
    request is a payment initiation that passes validation. *)
Lemma app_replies (req : Request) (o : Oracle) (w : World) :
  (exists r, fst (app req o w) = Sent r)
  \/ fst (app req o w) = Escaped not_primitive
  \/ (exists body, req = POST_payments_initiate body /\
                   fst (app req o w)
                   = Timer 1000 (Throws (ReferenceError "simulatedQrCodeUrl"))).
Proof.
  destruct req as [| body | id | body | body | body | | id]; handler.
  - query SelectBookings o w; eauto.
  - validation; eauto.
    match goal with |- context [pool_query ?q o w] => query q o w end; eauto.
  - query (DeleteBooking (JStr id)) o w; eauto.
    row_count; eauto.
  - validation; eauto.
    destruct (ToString_cases (get body "bookingId")) as [(b & ->) | ->]; auto.
    destruct (ToString_cases (get body "serviceName")) as [(s & ->) | ->]; auto.
    destruct (ToString_cases (get body "amount")) as [(a & ->) | ->]; eauto.
  - validation; eauto.
    match goal with |- context [pool_query ?q o w] => query q o w end; eauto.
    row_count; evaluation; eauto.
  - validation; eauto.
    destruct (outside_cases (get body "rating") 1 5) as [(b & ->) | ->];
      simpl; auto.
    destruct b; simpl; eauto.
    match goal with |- context [pool_query ?q o w] => query q o w end; eauto.
  - query SelectTestimonials o w; eauto.
  - query (DeleteTestimonial (JStr id)) o w; eauto.
    row_count; eauto.
Qed.

(** ** Invariants of the bookings table *)

(** Where a row found after a statement of the application comes from:
    it was there before, or it is the row just inserted by a booking
    creation, or it is a row rewritten by a payment confirmation. *)
Lemma execute_row_origin (req : Request) (now : Z) (q : Statement)
      (d d' : Database) (r : QueryResult) (b' : Booking.t) :
  statement_of req = Some q -> execute now q d = inr (r, d') ->
  In b' (bookings4 d') ->
  In b' (bookings4 d)
  \/ (Booking.id b' = bookings4_id_seq d
      /\ Booking.payment_status b' = "pending"
      /\ exists body, req = POST_bookings4 body)
  \/ (exists b body, In b (bookings4 d)
                     /\ b' = Booking.set_payment_status "completed" b
                     /\ req = POST_payments_confirm body).
Proof.
  intros Hq He Hin.
  destruct req as [| body | id | body | body | body | | id];
    simpl in Hq; inversion Hq; subst q; clear Hq; simpl in He.
  - inversion He; subst. auto.
  - inversion He; subst. simpl in Hin.
    apply in_app_or in Hin. destruct Hin as [Hin | [<- | []]]; auto.
    right. left. simpl. eauto.
  - destruct (id_in (JStr id)); inversion He; subst. simpl in Hin.
    apply filter_In in Hin. tauto.
  - destruct (id_in (get body "bookingId")) as [| k]; inversion He; subst.
    simpl in Hin. apply in_map_iff in Hin. destruct Hin as (b & <- & Hb).
    destruct (Booking.id b =? k); eauto 8.
  - inversion He; subst. auto.
  - inversion He; subst. auto.
  - destruct (id_in (JStr id)); inversion He; subst. auto.
Qed.

Lemma id_seq_grows (now : Z) (q : Statement) (d d' : Database)
      (r : QueryResult) :
  execute now q d = inr (r, d') -> bookings4_id_seq d <= bookings4_id_seq d'.
Proof.
  intros He.
  destruct q; simpl in He;
    try (destruct (id_in _)); inversion He; subst; simpl; lia.
Qed.

Lemma NoDup_snoc_fresh (l : list Z) (n : Z) :
  NoDup l -> (forall x, In x l -> x < n) -> NoDup (l ++ [n]).
Proof.
  induction l as [| a l IH]; simpl; intros Hnd Hlt.
  - repeat constructor. intros [].
  - inversion Hnd as [| ? ? Ha Hl]; subst.
    constructor.
    + intros Hin. apply in_app_or in Hin. destruct Hin as [Hin | [<- | []]].
      * contradiction.
      * specialize (Hlt n (or_introl eq_refl)). lia.
    + apply IH; auto.
Qed.

Lemma NoDup_map_filter {A : Type} (f : A -> Z) (p : A -> bool) (l : list A) :
  NoDup (map f l) -> NoDup (map f (filter p l)).
Proof.
  induction l as [| x l IH]; simpl; intros Hnd; trivial.
  inversion Hnd as [| ? ? Hx Hl]; subst.
  destruct (p x); simpl; auto.
  constructor; auto.
  intros Hin. apply Hx.
  apply in_map_iff in Hin. destruct Hin as (y & <- & Hy).
  apply filter_In in Hy. apply in_map. tauto.
Qed.

Lemma execute_preserves_invariant (req : Request) (now : Z) (q : Statement)
      (d d' : Database) (r : QueryResult) :
  statement_of req = Some q -> execute now q d = inr (r, d') ->
  booking_invariant d -> booking_invariant d'.
Proof.
  intros Hq He (Hnd & Hlt & Hst).
  assert (Hseq := id_seq_grows _ _ _ _ _ He).
  split; [| split].
  - unfold booking_ids in *.
    destruct req as [| body | id | body | body | body | | id];
      simpl in Hq; inversion Hq; subst q; clear Hq; simpl in He;
      try (destruct (id_in _)); inversion He; subst; simpl; trivial.
    + rewrite map_app. simpl. apply NoDup_snoc_fresh; trivial.
      intros x Hx. apply in_map_iff in Hx. destruct Hx as (b & <- & Hb). auto.
    + now apply NoDup_map_filter.
    + rewrite map_map.
      erewrite map_ext; [exact Hnd |].
      intros b. simpl. now destruct (Booking.id b =? _).
  - intros b' Hb'.
    destruct (execute_row_origin _ _ _ _ _ _ _ Hq He Hb')
      as [Hin | [(Hid & _) | (b & body & Hin & -> & _)]].
    + specialize (Hlt _ Hin). lia.
    + rewrite Hid.
      destruct req; simpl in Hq; inversion Hq; subst q; simpl in He;
        try (destruct (id_in _)); inversion He; subst; simpl in *;
        try lia.
      all: try (specialize (Hlt _ Hb'); lia).
      all: try (apply filter_In in Hb'; destruct Hb' as [Hb' _];
                specialize (Hlt _ Hb'); lia).
      apply in_map_iff in Hb'. destruct Hb' as (b0 & <- & Hb0).
      specialize (Hlt _ Hb0).
      destruct (Booking.id b0 =? _); simpl in *; lia.
    + simpl. specialize (Hlt _ Hin). lia.
  - intros b' Hb'.
    destruct (execute_row_origin _ _ _ _ _ _ _ Hq He Hb')
      as [Hin | [(_ & Hp & _) | (b & body & Hin & -> & _)]].
    + auto.
    + now left.
    + now right.
Qed.

Lemma initial_invariant : booking_invariant (db initial_world).
Proof.
  split; [| split].
  - constructor.
  - intros b [].
  - intros b [].
Qed.

Lemma reachable_invariant (w : World) :
  reachable w -> booking_invariant (db w).
Proof.
  induction 1 as [| req o w Hr IH].
  - apply initial_invariant.
  - destruct (app_database req o w) as [-> | (q & r & Hq & He)]; trivial.
    eapply execute_preserves_invariant; eauto.
Qed.

(** C2: in every reachable state each booking row has
    [payment_status] ['pending'] or ['completed'].  Across one request,
    whichever it is: a row that was not there before (a created row)
    holds ['pending']; a row whose status differs from the status it had
    before was rewritten by a payment confirmation, and went from
    ['pending'] to ['completed']; a row that was ['completed'] is still
    ['completed']. *)
Theorem payment_status_lifecycle (w : World) (req : Request) (o : Oracle) :
  reachable w ->
  (forall b, In b (bookings4 (db w)) -> pending_or_completed b)
  /\
  (forall b', In b' (bookings4 (db (snd (app req o w)))) ->
              ~ In (Booking.id b') (booking_ids (db w)) ->
              Booking.payment_status b' = "pending")
  /\
  (forall b b', In b (bookings4 (db w)) ->
                In b' (bookings4 (db (snd (app req o w)))) ->
                Booking.id b' = Booking.id b ->
                Booking.payment_status b' <> Booking.payment_status b ->
                (exists body, req = POST_payments_confirm body)
                /\ Booking.payment_status b = "pending"
                /\ Booking.payment_status b' = "completed")
  /\
  (forall b b', In b (bookings4 (db w)) ->
                In b' (bookings4 (db (snd (app req o w)))) ->
                Booking.id b' = Booking.id b ->
                Booking.payment_status b = "completed" ->
                Booking.payment_status b' = "completed").
Proof.
  intros Hr.
  destruct (reachable_invariant w Hr) as (Hnd & Hlt & Hst).
  assert (Hchange :
    forall b b', In b (bookings4 (db w)) ->
                 In b' (bookings4 (db (snd (app req o w)))) ->
                 Booking.id b' = Booking.id b ->
                 b' = b \/
                 ((exists body, req = POST_payments_confirm body)
                  /\ Booking.payment_status b' = "completed")).
  { intros b b' Hb Hb' Hid.
    destruct (app_database req o w) as [E | (q & r & Hq & He)].
    - rewrite E in Hb'. left.
      now apply (same_key_same_row (bookings4 (db w))).
    - destruct (execute_row_origin _ _ _ _ _ _ _ Hq He Hb')
        as [Hin | [(Hnew & _) | (b0 & body & Hin & -> & ->)]].
      + left. now apply (same_key_same_row (bookings4 (db w))).
      + specialize (Hlt _ Hb). lia.
      + right. split; [eauto | reflexivity]. }
  split; [exact Hst |]. split; [| split].
  - intros b' Hb' Hfresh.
    destruct (app_database req o w) as [E | (q & r & Hq & He)].
    + rewrite E in Hb'. exfalso. apply Hfresh. now apply in_map.
    + destruct (execute_row_origin _ _ _ _ _ _ _ Hq He Hb')
        as [Hin | [(_ & Hp & _) | (b0 & body & Hin & -> & _)]].
      * exfalso. apply Hfresh. now apply in_map.
      * exact Hp.
      * exfalso. apply Hfresh. simpl.
        now apply (in_map Booking.id) in Hin.
  - intros b b' Hb Hb' Hid Hne.
    destruct (Hchange b b' Hb Hb' Hid) as [-> | (Hreq & Hc)].
    + contradiction.
    + repeat split; trivial.
      destruct (Hst b Hb) as [Hp | Hp]; trivial.
      rewrite Hc, Hp in Hne. contradiction.
  - intros b b' Hb Hb' Hid Hc.
    destruct (Hchange b b' Hb Hb' Hid) as [-> | (_ & Hc')]; trivial.
Qed.

(** ** Listing the bookings *)

Lemma filter_permutation {A : Type} (p : A -> bool) (l l' : list A) :
  Permutation l l' -> Permutation (filter p l) (filter p l').
Proof.
  induction 1 as [| x l l' _ IH | x y l | l l' l'' _ IH1 _ IH2]; simpl.
  - constructor.
  - destruct (p x); auto.
  - destruct (p x), (p y); auto using perm_swap, Permutation_refl.
  - eapply perm_trans; eauto.
Qed.

Lemma booking_leb_total : total datetime_leb -> total booking_leb.
Proof. intros H a b. apply H. Qed.

Lemma booking_leb_transitive : transitive datetime_leb -> transitive booking_leb.
Proof. intros H a b c. apply H. Qed.

Lemma get_bookings4_lists (o : Oracle) (w : World) :
  fault o = None ->
  app GET_bookings4 o w
  = (Sent (json 200 (RowsBody
             (map BookingRow (order_by_desc booking_leb (bookings4 (db w)))))),
     after_query SelectBookings (db w) w).
Proof.
  intros Hf. handler. unfold pool_query. now rewrite Hf.
Qed.

(** A 201 from POST /bookings4 carries the row that the store appended
    under the next id of the sequence. *)
Lemma created_booking (body : Obj) (o : Oracle) (w : World) (b : Booking.t) :
  fst (app (POST_bookings4 body) o w)
  = Sent (json 201 (RowBody (Some (BookingRow b)))) ->
  bookings4 (db (snd (app (POST_bookings4 body) o w)))
  = (bookings4 (db w) ++ [b])%list
  /\ Booking.id b = bookings4_id_seq (db w).
Proof.
  handler. validation; [discriminate |].
  unfold pool_query.
  destruct (fault o); simpl; [discriminate |].
  intros H. inversion H. auto.
Qed.

(** C7: GET /bookings4, when the store executes the query, answers 200
    with all the rows of [bookings4] (a permutation of the table) in
    descending order of [datetime]; and after a booking creation
    answered 201 in a reachable state, the list of a following
    GET /bookings4 contains the created row and exactly one row of its
    id. *)
Theorem list_bookings_contract (w : World) (o o' : Oracle) (body : Obj)
        (b : Booking.t) :
  total datetime_leb -> transitive datetime_leb ->
  (fault o = None ->
   exists l : list Booking.t,
     fst (app GET_bookings4 o w) = Sent (json 200 (RowsBody (map BookingRow l)))
     /\ Permutation (bookings4 (db w)) l
     /\ StronglySorted (descending booking_leb) l)
  /\
  (reachable w ->
   fst (app (POST_bookings4 body) o w)
   = Sent (json 201 (RowBody (Some (BookingRow b)))) ->
   fault o' = None ->
   exists l : list Booking.t,
     fst (app GET_bookings4 o' (snd (app (POST_bookings4 body) o w)))
     = Sent (json 200 (RowsBody (map BookingRow l)))
     /\ In b l
     /\ List.length (filter (fun x => Booking.id x =? Booking.id b) l) = 1%nat).
Proof.
  intros Htot Htr. split.
  - intros Hf. rewrite (get_bookings4_lists o w Hf).
    eexists. split; [reflexivity |]. split.
    + apply order_by_desc_perm.
    + apply order_by_desc_strongly_sorted.
      * now apply booking_leb_total.
      * now apply booking_leb_transitive.
  - intros Hr Hcreated Hf'.
    destruct (created_booking body o w b Hcreated) as (Hrows & Hid).
    destruct (reachable_invariant w Hr) as (_ & Hlt & _).
    rewrite (get_bookings4_lists o' _ Hf'). rewrite Hrows.
    eexists. split; [reflexivity |].
    assert (Hperm := order_by_desc_perm booking_leb (bookings4 (db w) ++ [b])).
    split.
    + apply (Permutation_in _ Hperm). apply in_or_app. right. now left.
    + rewrite <- (Permutation_length
                    (filter_permutation
                       (fun x => Booking.id x =? Booking.id b) _ _ Hperm)).
      rewrite filter_app. simpl. rewrite Z.eqb_refl.
      assert (E : filter (fun x => Booking.id x =? Booking.id b)
                         (bookings4 (db w)) = []).
      { apply filter_key_absent. intros x Hx. specialize (Hlt x Hx). lia. }
      now rewrite E.
Qed.

(** ** Testimonial validation *)

Lemma responds_with_sent (s : Z) (resp : Response) :
  responds_with s (Sent resp) <-> status resp = s.
Proof.
  split.
  - intros (r & E & H). now inversion E.
  - intros H. now exists resp.
Qed.

(** POST /api/testimonials answers 400 exactly when one of its two
    checks fails. *)
Lemma post_testimonials_rejects (body : Obj) (o : Oracle) (w : World) :
  responds_with 400 (fst (app (POST_testimonials body) o w))
  <-> testimonial_required body = true \/ rating_out_of_range body = inr true.
Proof.
  handler. fold (testimonial_required body). fold (rating_out_of_range body).
  destruct (testimonial_required body); simpl.
  - rewrite responds_with_sent. simpl. tauto.
  - destruct (rating_out_of_range body) as [e | [|]]; simpl.
    + split.
      * intros (r & E & _). discriminate.
      * intros [H | H]; discriminate.
    + rewrite responds_with_sent. simpl. tauto.
    + match goal with |- context [pool_query ?q o w] => query q o w end;
        rewrite responds_with_sent; simpl; split;
        try discriminate; intros [H | H]; discriminate.
Qed.

(** A request that passes both checks is answered 201 with the inserted
    row when the store does not fail. *)
Lemma post_testimonials_accepts (body : Obj) (o : Oracle) (w : World) :
  testimonial_required body = false ->
  rating_out_of_range body = inr false ->
  fault o = None ->
  exists t : Testimonial.t,
    fst (app (POST_testimonials body) o w)
    = Sent (json 201 (RowBody (Some (TestimonialRow t))))
    /\ testimonials (db (snd (app (POST_testimonials body) o w)))
       = (testimonials (db w) ++ [t])%list
    /\ Testimonial.rating t = pg_value (get body "rating")
    /\ Testimonial.genuine_opinion t = pg_value (get body "genuineOpinion").
Proof.
  intros H1 H2 Hf.
  handler. fold (testimonial_required body). fold (rating_out_of_range body).
  rewrite H1, H2. unfold pool_query. rewrite Hf. simpl.
  eexists. repeat split.
Qed.

Lemma others_present_required (body : Obj) :
  testimonial_others_present body ->
  testimonial_required body = not_ (get body "rating").
Proof.
  intros (H1 & H2 & H3 & H4).
  unfold testimonial_required, not_. rewrite H1, H2, H3. simpl.
  destruct (get body "genuineOpinion"); try apply orb_false_r.
  contradiction.
Qed.

Lemma outside_number (v : JsValue) (n : Number) :
  ToNumber v = inr n ->
  outside v 1 5 = inr (number_lt n (of_Z 1) || number_lt (of_Z 5) n).
Proof.
  intros E. unfold outside, lt_lit, gt_lit. rewrite E.
  now destruct (number_lt n (of_Z 1)).
Qed.

Lemma numeric_rating_outside (n : Number) :
  outside (JNum n) 1 5 = inr (number_lt n (of_Z 1) || number_lt (of_Z 5) n).
Proof. now apply outside_number. Qed.

Lemma numeric_rating_rejected (n : Number) :
  not_ (JNum n) = true \/ outside (JNum n) 1 5 = inr true
  <-> ~ in_rating_range n.
Proof.
  rewrite numeric_rating_outside.
  unfold not_, of_Z.
  destruct n as [| [|] | q]; simpl; try tauto.
  rewrite negb_involutive, Qeq_bool_iff.
  assert (E : forall b, inr (A := Exception) b = inr true <-> b = true).
  { intros b. split; [intros H; now inversion H | now intros ->]. }
  rewrite E, orb_true_iff, !Qlt_bool_iff.
  split.
  - intros [H | [H | H]] [H1 H5].
    + rewrite H in H1. now apply H1.
    + now apply Qlt_not_le in H.
    + now apply Qlt_not_le in H.
  - intros H.
    destruct (Qlt_le_dec q 1) as [Hlt | Hle]; [tauto |].
    destruct (Qlt_le_dec 5 q) as [Hgt | Hge]; [tauto |].
    exfalso. apply H. now split.
Qed.

Lemma integer_in_range (k : Z) :
  in_rating_range (of_Z k) <-> 1 <= k <= 5.
Proof.
  unfold in_rating_range, of_Z, Qle. simpl. lia.
Qed.

(** C5, as the handler has it, for a request whose other required
    fields pass the presence check.  Whatever the rating is, when it
    converts to the Number [n] the response is 400 exactly when the
    rating is falsy or [n < 1] or [n > 5].  When the rating is itself a
    Number [n], the response is thus 400 exactly when [n] is not within
    [1, 5]; whether [n] is an integer plays no part, and a rating within
    the bounds is accepted with 201 when the store does not fail.  For
    an integer rating [k] the response is 400 exactly when [k] is not
    one of 1..5: 0 and 6 are rejected, 1 and 5 are accepted. *)
Theorem rating_validation (body : Obj) (n : Number) (o : Oracle) (w : World) :
  testimonial_others_present body ->
  (ToNumber (get body "rating") = inr n ->
   (responds_with 400 (fst (app (POST_testimonials body) o w))
    <-> truthy (get body "rating") = false
        \/ number_lt n (of_Z 1) = true \/ number_lt (of_Z 5) n = true))
  /\
  (get body "rating" = JNum n ->
   (responds_with 400 (fst (app (POST_testimonials body) o w))
    <-> ~ in_rating_range n)
   /\
   (in_rating_range n -> fault o = None ->
    exists t : Testimonial.t,
      fst (app (POST_testimonials body) o w)
      = Sent (json 201 (RowBody (Some (TestimonialRow t))))
      /\ Testimonial.rating t = JNum n)
   /\
   (forall k : Z, n = of_Z k ->
      (responds_with 400 (fst (app (POST_testimonials body) o w))
       <-> ~ 1 <= k <= 5))).
Proof.
  intros Hp. split.
  - intros Hn.
    rewrite post_testimonials_rejects, (others_present_required body Hp).
    unfold rating_out_of_range, not_. rewrite (outside_number _ _ Hn).
    rewrite negb_true_iff, <- orb_true_iff.
    split; (intros [H | H]; [now left | right]).
    + now inversion H.
    + now rewrite H.
  - intros Hr.
    assert (Hrej : responds_with 400 (fst (app (POST_testimonials body) o w))
                   <-> ~ in_rating_range n).
    { rewrite post_testimonials_rejects, (others_present_required body Hp).
      unfold rating_out_of_range. rewrite Hr. apply numeric_rating_rejected. }
    split; [exact Hrej |]. split.
    + intros Hin Hf.
      destruct (post_testimonials_accepts body o w) as (t & Ht & _ & Hrt & _);
        trivial.
      * destruct (testimonial_required body) eqn:E; trivial.
        exfalso. apply (proj1 Hrej); trivial.
        apply post_testimonials_rejects. now left.
      * unfold rating_out_of_range. rewrite Hr, numeric_rating_outside.
        destruct (number_lt n (of_Z 1) || number_lt (of_Z 5) n) eqn:E; trivial.
        exfalso. apply (proj1 Hrej); trivial.
        apply post_testimonials_rejects. right.
        unfold rating_out_of_range. now rewrite Hr, numeric_rating_outside, E.
      * exists t. split; trivial. now rewrite Hrt, Hr.
    + intros k ->. now rewrite Hrej, integer_in_range.
Qed.

(** C10: a request whose [genuineOpinion] is anything but [undefined]
    ([false] and [null] included) and whose other fields are valid is
    accepted with 201 when the store does not fail, and the row keeps
    that value; a falsy [reviewerName], [reviewerEmail], [reviewText]
    or [rating] is answered 400, and so is an absent
    [genuineOpinion]. *)
Theorem genuine_opinion_presence (body : Obj) (o : Oracle) (w : World) :
  (testimonial_others_present body ->
   truthy (get body "rating") = true ->
   rating_out_of_range body = inr false ->
   fault o = None ->
   exists t : Testimonial.t,
     fst (app (POST_testimonials body) o w)
     = Sent (json 201 (RowBody (Some (TestimonialRow t))))
     /\ Testimonial.genuine_opinion t = get body "genuineOpinion")
  /\
  (forall k, In k ["reviewerName"; "reviewerEmail"; "reviewText"; "rating"] ->
             truthy (get body k) = false ->
             fst (app (POST_testimonials body) o w)
             = Sent (json 400 (ErrorBody
                       "All testimonial fields (except title) are required.")))
  /\
  (get body "genuineOpinion" = JUndefined ->
   fst (app (POST_testimonials body) o w)
   = Sent (json 400 (ErrorBody
             "All testimonial fields (except title) are required."))).
Proof.
  split; [| split].
  - intros Hp Ht Hrange Hf.
    destruct (post_testimonials_accepts body o w) as (t & Ht' & _ & _ & Hg);
      trivial.
    + rewrite (others_present_required body Hp). unfold not_.
      now rewrite Ht.
    + exists t. split; trivial. rewrite Hg.
      destruct Hp as (_ & _ & _ & Hg').
      destruct (get body "genuineOpinion"); trivial. contradiction.
  - intros k Hk Hfalsy.
    assert (E : testimonial_required body = true).
    { unfold testimonial_required, not_. simpl in Hk.
      destruct Hk as [<- | [<- | [<- | [<- | []]]]]; rewrite Hfalsy; simpl;
        rewrite ?orb_true_r; reflexivity. }
    handler. fold (testimonial_required body). now rewrite E.
  - intros Hu.
    assert (E : testimonial_required body = true).
    { unfold testimonial_required. rewrite Hu. apply orb_true_r. }
    handler. fold (testimonial_required body). now rewrite E.
Qed.

(** ** Store errors *)

Lemma store_error_rejects (q : Statement) (o : Oracle) (w : World)
      (msg : string) :
  store_error q o w = Some msg ->
  pool_query q o w = (Rejected (StoreError msg), after_query q (db w) w).
Proof.
  unfold store_error, pool_query.
  destruct (fault o).
  - intros H. now inversion H.
  - destruct (execute (clock o) q (db w)) as [m | [r d']].
    + intros H. now inversion H.
    + discriminate.
Qed.

Lemma append_empty_r (s : string) : s ++ EmptyString = s.
Proof. induction s; simpl; congruence. Qed.

Lemma includes_or_else (pre msg fallback : string) :
  includes (pre ++ or_else msg fallback) msg.
Proof.
  unfold or_else. destruct (String.eqb_spec msg EmptyString) as [-> | _].
  - exists EmptyString, (pre ++ fallback). reflexivity.
  - exists pre, EmptyString. now rewrite append_empty_r.
Qed.

(** C9: when the store fails the statement of
    DELETE /api/testimonials/:id with an error of message [msg], the
    response is 500 and the text of its body contains [msg]; a 500
    response of any other route carries the fixed text of that route,
    which does not depend on the error. *)
Theorem store_error_disclosure (req : Request) (id msg : string) (o : Oracle)
        (w : World) :
  (store_error (DeleteTestimonial (JStr id)) o w = Some msg ->
   exists e : string,
     fst (app (DELETE_testimonials id) o w) = Sent (json 500 (ErrorBody e))
     /\ includes e msg)
  /\
  ((forall id', req <> DELETE_testimonials id') ->
   forall r : Response,
     fst (app req o w) = Sent r -> status r = 500 ->
     exists e : string, generic_500 req = Some e /\ body r = ErrorBody e).
Proof.
  split.
  - intros He. handler. rewrite (store_error_rejects _ _ _ _ He). simpl.
    eexists. split; [reflexivity |].
    exact (includes_or_else "Failed to delete testimonial from the database: "
             msg "Unknown database error").
  - intros Hother r.
    assert (Hsent : forall (x : Response) (e : string),
              status x <> 500 \/ body x = ErrorBody e ->
              Sent x = Sent r -> status r = 500 ->
              exists e', Some e = Some e' /\ body r = ErrorBody e').
    { intros x e Hx E Hs. inversion E. subst x.
      destruct Hx as [Hx | Hx]; [contradiction | eauto]. }
    destruct req as [| body | id0 | body | body | body | | id0]; handler;
      cbn [generic_500].
    + query SelectBookings o w; apply Hsent; simpl; auto; left; discriminate.
    + validation; [apply Hsent; left; discriminate |].
      match goal with |- context [pool_query ?q o w] => query q o w end;
        apply Hsent; simpl; auto; left; discriminate.
    + query (DeleteBooking (JStr id0)) o w; [| row_count];
        apply Hsent; simpl; auto; left; discriminate.
    + validation; [intros H; inversion H; subst; discriminate |].
      destruct (ToString (get body "bookingId")),
               (ToString (get body "serviceName")),
               (ToString (get body "amount")); discriminate.
    + validation; [apply Hsent; left; discriminate |].
      match goal with |- context [pool_query ?q o w] => query q o w end;
        [| row_count; evaluation];
        apply Hsent; simpl; auto; left; discriminate.
    + validation; [apply Hsent; left; discriminate |].
      evaluation; [discriminate |].
      validation; [apply Hsent; left; discriminate |].
      match goal with |- context [pool_query ?q o w] => query q o w end;
        apply Hsent; simpl; auto; left; discriminate.
    + query SelectTestimonials o w; apply Hsent; simpl; auto; left; discriminate.
    + exfalso. now apply (Hother id0).
Qed.

(** * Further properties of the handlers *)

(** ** Keys of a table *)

Lemma filter_absent {A : Type} (f : A -> Z) (k : Z) (l : list A) :
  (forall x, In x l -> f x <> k) ->
  filter (fun x => f x =? k) l = []
  /\ filter (fun x => negb (f x =? k)) l = l.
Proof.
  induction l as [| a l IH]; intros H; simpl.
  - auto.
  - assert (Ha : (f a =? k) = false) by (apply Z.eqb_neq, H; now left).
    rewrite Ha. simpl.
    destruct IH as (-> & ->); auto.
    intros x Hx. apply H. now right.
Qed.

Lemma filter_present {A : Type} (f : A -> Z) (k : Z) (l : list A) :
  (exists x, In x l /\ f x = k) ->
  List.length (filter (fun x => f x =? k) l) <> 0%nat.
Proof.
  intros (x & Hx & Hk) E.
  apply length_zero_iff_nil in E.
  assert (Hin : In x (filter (fun x => f x =? k) l))
    by (apply filter_In; split; trivial; now apply Z.eqb_eq).
  rewrite E in Hin. contradiction.
Qed.

Lemma filter_split_length {A : Type} (p : A -> bool) (l : list A) :
  (List.length (filter p l) + List.length (filter (fun x => negb (p x)) l)
   = List.length l)%nat.
Proof.
  induction l as [| a l IH]; simpl; trivial.
  destruct (p a); simpl; lia.
Qed.

Lemma unique_key_hits {A : Type} (f : A -> Z) (k : Z) (l : list A) :
  NoDup (map f l) ->
  (List.length (filter (fun x => (f x =? k)%Z) l) <= 1)%nat.
Proof.
  induction l as [| a l IH]; simpl; intros Hnd.
  - lia.
  - inversion Hnd as [| ? ? Ha Hl]; subst.
    destruct (Z.eqb_spec (f a) k) as [E | _]; [| auto].
    simpl.
    destruct (filter_absent f k l) as (-> & _); [| simpl; lia].
    intros x Hx Hk. apply Ha. rewrite E, <- Hk. now apply in_map.
Qed.

Lemma same_testimonial_key (l : list Testimonial.t) (a b : Testimonial.t) :
  NoDup (map Testimonial.id l) -> In a l -> In b l ->
  Testimonial.id a = Testimonial.id b -> a = b.
Proof.
  induction l as [| x l IH]; simpl; intros Hnd Ha Hb E.
  - contradiction.
  - inversion Hnd as [| ? ? Hx Hl]; subst.
    destruct Ha as [-> | Ha], Hb as [-> | Hb]; trivial.
    + exfalso. apply Hx. rewrite E. now apply in_map.
    + exfalso. apply Hx. rewrite <- E. now apply in_map.
    + now apply IH.
Qed.

(** ** Listing the testimonials *)

Lemma testimonial_leb_total : total testimonial_leb.
Proof. intros a b. unfold testimonial_leb. lia. Qed.

Lemma testimonial_leb_transitive : transitive testimonial_leb.
Proof. intros a b c. unfold testimonial_leb. lia. Qed.

Lemma get_testimonials_lists (o : Oracle) (w : World) :
  fault o = None ->
  app GET_testimonials o w
  = (Sent (json 200 (RowsBody
             (map TestimonialRow
                  (order_by_desc testimonial_leb (testimonials (db w)))))),
     after_query SelectTestimonials (db w) w).
Proof.
  intros Hf. handler. unfold pool_query. now rewrite Hf.
Qed.

(** X1: GET /api/testimonials never changes the tables; when the store
    executes the query it answers 200 with all the rows of
    [testimonials] (a permutation of the table), the most recent
    [created_at] first. *)
Theorem list_testimonials_contract (o : Oracle) (w : World) :
  db (snd (app GET_testimonials o w)) = db w
  /\
  (fault o = None ->
   exists l : list Testimonial.t,
     fst (app GET_testimonials o w)
     = Sent (json 200 (RowsBody (map TestimonialRow l)))
     /\ Permutation (testimonials (db w)) l
     /\ StronglySorted (descending testimonial_leb) l).
Proof.
  split.
  - handler. query SelectTestimonials o w; trivial.
    simpl in He. now inversion He.
  - intros Hf. rewrite (get_testimonials_lists o w Hf).
    eexists. split; [reflexivity |]. split.
    + apply order_by_desc_perm.
    + apply order_by_desc_strongly_sorted.
      * exact testimonial_leb_total.
      * exact testimonial_leb_transitive.
Qed.

(** ** Testimonial deletion *)

(** X2: DELETE /api/testimonials/:id, when the store executes the
    statement and reads the path parameter [id] as the key [k].  If no
    row has that key, the response is 404, its message contains [id],
    and the tables are as they were.  If a row has it, the response is
    200 with the success message, the rows of key [k] are gone and the
    others stay, [bookings4] is untouched, a following
    GET /api/testimonials lists no row of key [k], and a following
    DELETE of the same id answers 404. *)
Theorem delete_testimonial_contract (id : string) (k : Z) (o o1 o2 : Oracle)
        (w : World) :
  fault o = None -> id_in (JStr id) = inr k ->
  (~ has_testimonial k (db w) ->
   fst (app (DELETE_testimonials id) o w)
   = Sent (json 404 (ErrorBody ("Testimonial with ID " ++ id ++ " not found.")))
   /\ db (snd (app (DELETE_testimonials id) o w)) = db w)
  /\
  (has_testimonial k (db w) ->
   fst (app (DELETE_testimonials id) o w)
   = Sent (json 200 (MessageBody
             ("Testimonial with ID " ++ id ++ " deleted successfully.")))
   /\ testimonials (db (snd (app (DELETE_testimonials id) o w)))
      = filter (fun t => negb (Testimonial.id t =? k)) (testimonials (db w))
   /\ bookings4 (db (snd (app (DELETE_testimonials id) o w)))
      = bookings4 (db w)
   /\ (fault o1 = None ->
       exists l : list Testimonial.t,
         fst (app GET_testimonials o1 (snd (app (DELETE_testimonials id) o w)))
         = Sent (json 200 (RowsBody (map TestimonialRow l)))
         /\ forall t, In t l -> Testimonial.id t <> k)
   /\ (fault o2 = None ->
       fst (app (DELETE_testimonials id) o2
                (snd (app (DELETE_testimonials id) o w)))
       = Sent (json 404 (ErrorBody
                 ("Testimonial with ID " ++ id ++ " not found."))))).
Proof.
  intros Hf Hk. split.
  - intros Hno.
    destruct (filter_absent Testimonial.id k (testimonials (db w)))
      as (E1 & E2).
    { intros t Ht E. apply Hno. now exists t. }
    handler. unfold pool_query. rewrite Hf. simpl. rewrite Hk, E1, E2.
    simpl. split; trivial. now destruct (db w).
  - intros Hhas.
    assert (Hlen := filter_present Testimonial.id k _ Hhas).
    handler. unfold pool_query. rewrite Hf. simpl. rewrite Hk.
    match goal with
    | |- context [Nat.eqb ?n 0] => destruct (Nat.eqb_spec n 0) as [E | _]
    end; [contradiction |].
    simpl. split; [reflexivity |]. split; [reflexivity |].
    split; [reflexivity |]. split.
    + intros Hf1. rewrite Hf1. simpl.
      eexists. split; [reflexivity |].
      intros t Ht.
      apply (Permutation_in _ (Permutation_sym (order_by_desc_perm _ _))) in Ht.
      apply filter_In in Ht. destruct Ht as [_ Ht].
      apply negb_true_iff in Ht. now apply Z.eqb_neq.
    + intros Hf2. rewrite Hf2. simpl.
      set (l' := filter (fun t => negb (Testimonial.id t =? k))
                        (testimonials (db w))).
      destruct (filter_absent Testimonial.id k l') as (E1 & _).
      { intros t Ht. apply filter_In in Ht. destruct Ht as [_ Ht].
        apply negb_true_iff in Ht. now apply Z.eqb_neq. }
      now rewrite E1.
Qed.

(** ** What one request does to each table *)

(** The rows of [testimonials] after a request: the same rows, or the
    rows without those of one key, or the rows followed by a new row
    that passed the checks of POST /api/testimonials. *)
Lemma app_testimonials (req : Request) (o : Oracle) (w : World) :
  (testimonials (db (snd (app req o w))) = testimonials (db w)
   /\ testimonials_id_seq (db (snd (app req o w)))
      = testimonials_id_seq (db w))
  \/
  ((exists id, req = DELETE_testimonials id)
   /\ (exists k,
         testimonials (db (snd (app req o w)))
         = filter (fun t => negb (Testimonial.id t =? k)) (testimonials (db w)))
   /\ testimonials_id_seq (db (snd (app req o w)))
      = testimonials_id_seq (db w))
  \/
  ((exists body, req = POST_testimonials body)
   /\ (exists t,
         testimonials (db (snd (app req o w)))
         = (testimonials (db w) ++ [t])%list
         /\ Testimonial.id t = testimonials_id_seq (db w)
         /\ Testimonial.created_at t = clock o
         /\ valid_testimonial t)
   /\ testimonials_id_seq (db (snd (app req o w)))
      = testimonials_id_seq (db w) + 1).
Proof.
  destruct req as [| body | id | body | body | body | | id]; handler.
  - query SelectBookings o w; auto.
    simpl in He. inversion He. auto.
  - validation; auto.
    match goal with |- context [pool_query ?q o w] => query q o w end; auto.
    simpl in He. inversion He. auto.
  - query (DeleteBooking (JStr id)) o w; auto.
    simpl in He. destruct (id_in (JStr id)); inversion He.
    row_count; auto.
  - validation; auto.
    destruct (ToString (get body "bookingId")),
             (ToString (get body "serviceName")),
             (ToString (get body "amount")); auto.
  - validation; auto.
    match goal with |- context [pool_query ?q o w] => query q o w end; auto.
    simpl in He. destruct (id_in (get body "bookingId")); inversion He.
    row_count; evaluation; auto.
  - fold (testimonial_required body).
    destruct (testimonial_required body) eqn:Hreq; simpl; auto.
    destruct (outside (get body "rating") 1 5) as [e | [|]] eqn:Hout;
      simpl; auto.
    match goal with |- context [pool_query ?q o w] => query q o w end; auto.
    simpl in He. inversion He. simpl.
    right. right. split; [eauto |]. split; [| reflexivity].
    eexists. split; [reflexivity |]. split; [reflexivity |].
    split; [reflexivity |].
    unfold testimonial_required, not_ in Hreq.
    repeat (apply orb_false_iff in Hreq; destruct Hreq as [Hreq ?]).
    repeat match goal with
           | H : negb _ = false |- _ => apply negb_false_iff in H
           end.
    unfold valid_testimonial. simpl.
    rewrite !pg_value_truthy by assumption. auto.
  - query SelectTestimonials o w; auto.
    simpl in He. inversion He. auto.
  - query (DeleteTestimonial (JStr id)) o w; auto.
    simpl in He. destruct (id_in (JStr id)) as [| k]; inversion He.
    right. left. split; [eauto |].
    row_count; simpl; eauto.
Qed.

(** The rows of [bookings4] after a request: the same rows, or the rows
    without those of one key, or the rows with those of one key
    completed, or the rows followed by a new pending row whose six
    fields are truthy. *)
Lemma app_bookings (req : Request) (o : Oracle) (w : World) :
  (bookings4 (db (snd (app req o w))) = bookings4 (db w)
   /\ bookings4_id_seq (db (snd (app req o w))) = bookings4_id_seq (db w))
  \/
  ((exists id, req = DELETE_bookings4 id)
   /\ (exists k,
         bookings4 (db (snd (app req o w)))
         = filter (fun b => negb (Booking.id b =? k)) (bookings4 (db w)))
   /\ bookings4_id_seq (db (snd (app req o w))) = bookings4_id_seq (db w))
  \/
  ((exists body, req = POST_payments_confirm body)
   /\ (exists k,
         bookings4 (db (snd (app req o w)))
         = map (confirm_row k) (bookings4 (db w)))
   /\ bookings4_id_seq (db (snd (app req o w))) = bookings4_id_seq (db w))
  \/
  ((exists body, req = POST_bookings4 body)
   /\ (exists b,
         bookings4 (db (snd (app req o w))) = (bookings4 (db w) ++ [b])%list
         /\ Booking.id b = bookings4_id_seq (db w)
         /\ Booking.payment_status b = "pending"
         /\ Booking.booking_time b = clock o
         /\ valid_booking b)
   /\ bookings4_id_seq (db (snd (app req o w))) = bookings4_id_seq (db w) + 1).
Proof.
  destruct req as [| body | id | body | body | body | | id]; handler.
  - query SelectBookings o w; auto.
    simpl in He. inversion He. auto.
  - match goal with
    | |- context [if ?c then _ else _] => destruct c eqn:Hv; simpl; auto
    end.
    assert (Hall := proj1 (booking_validation body) Hv). clear Hv.
    match goal with |- context [pool_query ?q o w] => query q o w end; auto.
    simpl in He. inversion He. simpl.
    right. right. right. split; [eauto |]. split; [| reflexivity].
    eexists. split; [reflexivity |]. split; [reflexivity |].
    split; [reflexivity |]. split; [reflexivity |].
    unfold valid_booking. simpl.
    rewrite !pg_value_truthy by (apply Hall; simpl; tauto).
    repeat split; apply Hall; simpl; tauto.
  - query (DeleteBooking (JStr id)) o w; auto.
    simpl in He. destruct (id_in (JStr id)) as [| k]; inversion He.
    right. left. split; [eauto |].
    row_count; simpl; eauto.
  - validation; auto.
    destruct (ToString (get body "bookingId")),
             (ToString (get body "serviceName")),
             (ToString (get body "amount")); auto.
  - validation; auto.
    match goal with |- context [pool_query ?q o w] => query q o w end; auto.
    simpl in He.
    destruct (id_in (get body "bookingId")) as [| k]; inversion He.
    right. right. left. split; [eauto |].
    row_count; evaluation; simpl;
      (split; [exists k; reflexivity | reflexivity]).
  - validation; auto. evaluation; auto. validation; auto.
    match goal with |- context [pool_query ?q o w] => query q o w end; auto.
    simpl in He. inversion He. auto.
  - query SelectTestimonials o w; auto.
    simpl in He. inversion He. auto.
  - query (DeleteTestimonial (JStr id)) o w; auto.
    simpl in He. destruct (id_in (JStr id)); inversion He.
    row_count; auto.
Qed.

(** ** Invariants of the testimonials table *)

Lemma reachable_testimonial_invariant (w : World) :
  reachable w -> testimonial_invariant (db w).
Proof.
  unfold testimonial_invariant, testimonial_ids.
  induction 1 as [| req o w Hr (Hnd & Hlt)].
  - split; [constructor | intros t []].
  - destruct (app_testimonials req o w)
      as [(-> & ->) | [(_ & (k & ->) & ->) | (_ & (t & -> & Hid & _) & ->)]].
    + auto.
    + split.
      * now apply NoDup_map_filter.
      * intros t Ht. apply filter_In in Ht. now apply Hlt.
    + split.
      * rewrite map_app. simpl. rewrite Hid.
        apply NoDup_snoc_fresh; trivial.
        intros x Hx. apply in_map_iff in Hx. destruct Hx as (t0 & <- & Ht0).
        auto.
      * intros t0 Ht0. apply in_app_or in Ht0.
        destruct Ht0 as [Ht0 | [<- | []]].
        -- specialize (Hlt _ Ht0). lia.
        -- lia.
Qed.

Lemma created_testimonial (body : Obj) (o : Oracle) (w : World)
      (t : Testimonial.t) :
  fst (app (POST_testimonials body) o w)
  = Sent (json 201 (RowBody (Some (TestimonialRow t)))) ->
  testimonials (db (snd (app (POST_testimonials body) o w)))
  = (testimonials (db w) ++ [t])%list
  /\ Testimonial.id t = testimonials_id_seq (db w).
Proof.
  handler. validation; [discriminate |].
  evaluation; [discriminate |].
  validation; [discriminate |].
  unfold pool_query.
  destruct (fault o); simpl; [discriminate |].
  intros H. inversion H. auto.
Qed.

(** X3: after a testimonial creation answered 201 in a reachable state,
    the list of a following GET /api/testimonials contains the created
    row and exactly one row of its id. *)
Theorem created_testimonial_listed_once (w : World) (o o' : Oracle)
        (body : Obj) (t : Testimonial.t) :
  reachable w ->
  fst (app (POST_testimonials body) o w)
  = Sent (json 201 (RowBody (Some (TestimonialRow t)))) ->
  fault o' = None ->
  exists l : list Testimonial.t,
    fst (app GET_testimonials o' (snd (app (POST_testimonials body) o w)))
    = Sent (json 200 (RowsBody (map TestimonialRow l)))
    /\ In t l
    /\ List.length
         (filter (fun x => Testimonial.id x =? Testimonial.id t) l) = 1%nat.
Proof.
  intros Hr Hcreated Hf'.
  destruct (created_testimonial body o w t Hcreated) as (Hrows & Hid).
  destruct (reachable_testimonial_invariant w Hr) as (_ & Hlt).
  rewrite (get_testimonials_lists o' _ Hf'). rewrite Hrows.
  eexists. split; [reflexivity |].
  assert (Hperm := order_by_desc_perm testimonial_leb
                     (testimonials (db w) ++ [t])).
  split.
  - apply (Permutation_in _ Hperm). apply in_or_app. right. now left.
  - rewrite <- (Permutation_length
                  (filter_permutation
                     (fun x => Testimonial.id x =? Testimonial.id t) _ _ Hperm)).
    rewrite filter_app. simpl. rewrite Z.eqb_refl.
    destruct (filter_absent Testimonial.id (Testimonial.id t)
                (testimonials (db w))) as (-> & _); trivial.
    intros x Hx. specialize (Hlt x Hx). lia.
Qed.

(** X4: no request rewrites a testimonial: in a reachable state, a row
    found after a request under the id of a row that was there before
    the request is that very row. *)
Theorem testimonials_are_immutable (w : World) (req : Request) (o : Oracle)
        (t t' : Testimonial.t) :
  reachable w ->
  In t (testimonials (db w)) ->
  In t' (testimonials (db (snd (app req o w)))) ->
  Testimonial.id t' = Testimonial.id t ->
  t' = t.
Proof.
  intros Hr Ht Ht' Hid.
  destruct (reachable_testimonial_invariant w Hr) as (Hnd & Hlt).
  destruct (app_testimonials req o w)
    as [(E & _) | [(_ & (k & E) & _) | (_ & (t0 & E & Hid0 & _) & _)]];
    rewrite E in Ht'.
  - now apply (same_testimonial_key (testimonials (db w))).
  - apply filter_In in Ht'. destruct Ht' as [Ht' _].
    now apply (same_testimonial_key (testimonials (db w))).
  - apply in_app_or in Ht'. destruct Ht' as [Ht' | [<- | []]].
    + now apply (same_testimonial_key (testimonials (db w))).
    + specialize (Hlt _ Ht). lia.
Qed.

(** X5: a request writes to a table only through the routes of that
    table: [bookings4] and its sequence are left as they were by every
    request but a booking creation, a booking deletion and a payment
    confirmation; [testimonials] and its sequence by every request but
    a testimonial creation and a testimonial deletion; the two listings
    and the payment initiation leave the whole store as it was. *)
Theorem routes_write_their_own_table (req : Request) (o : Oracle) (w : World) :
  (writes_bookings req = false ->
   bookings4 (db (snd (app req o w))) = bookings4 (db w)
   /\ bookings4_id_seq (db (snd (app req o w))) = bookings4_id_seq (db w))
  /\
  (writes_testimonials req = false ->
   testimonials (db (snd (app req o w))) = testimonials (db w)
   /\ testimonials_id_seq (db (snd (app req o w)))
      = testimonials_id_seq (db w))
  /\
  (writes_bookings req = false -> writes_testimonials req = false ->
   db (snd (app req o w)) = db w).
Proof.
  assert (Hb : writes_bookings req = false ->
               bookings4 (db (snd (app req o w))) = bookings4 (db w)
               /\ bookings4_id_seq (db (snd (app req o w)))
                  = bookings4_id_seq (db w)).
  { intros Hw.
    destruct (app_bookings req o w)
      as [H | [((x & ->) & _) | [((x & ->) & _) | ((x & ->) & _)]]];
      trivial; discriminate. }
  assert (Ht : writes_testimonials req = false ->
               testimonials (db (snd (app req o w))) = testimonials (db w)
               /\ testimonials_id_seq (db (snd (app req o w)))
                  = testimonials_id_seq (db w)).
  { intros Hw.
    destruct (app_testimonials req o w)
      as [H | [((x & ->) & _) | ((x & ->) & _)]];
      trivial; discriminate. }
  split; [exact Hb |]. split; [exact Ht |].
  intros H1 H2.
  destruct (Hb H1) as (E1 & E2), (Ht H2) as (E3 & E4).
  destruct (db (snd (app req o w))), (db w). simpl in *. congruence.
Qed.

(** ** Booking rows *)

Lemma Forall2_same_or_completed (k : Z) (l : list Booking.t) :
  Forall2 same_or_completed l (map (confirm_row k) l).
Proof.
  induction l as [| b l IH]; simpl; constructor; trivial.
  unfold same_or_completed, confirm_row.
  destruct (Booking.id b =? k); auto.
Qed.

Lemma Forall2_same (l : list Booking.t) : Forall2 same_or_completed l l.
Proof.
  induction l; constructor; trivial. now left.
Qed.

(** X9: a payment confirmation, whatever its body and whatever the
    store answers, neither adds, removes nor reorders the rows of
    [bookings4]: each row is left as it was or differs from what it was
    in its [payment_status] only, now ['completed']; and [testimonials]
    is untouched. *)
Theorem confirmation_only_completes (body : Obj) (o : Oracle) (w : World) :
  Forall2 same_or_completed
    (bookings4 (db w))
    (bookings4 (db (snd (app (POST_payments_confirm body) o w))))
  /\ testimonials (db (snd (app (POST_payments_confirm body) o w)))
     = testimonials (db w).
Proof.
  split.
  - destruct (app_bookings (POST_payments_confirm body) o w)
      as [(-> & _) | [((x & E) & _) | [(_ & (k & ->) & _) | ((x & E) & _)]]];
      try discriminate.
    + apply Forall2_same.
    + apply Forall2_same_or_completed.
  - destruct (app_testimonials (POST_payments_confirm body) o w)
      as [(E & _) | [((x & E) & _) | ((x & E) & _)]];
      trivial; discriminate.
Qed.

(** X10: in a reachable state the ids are pairwise distinct, so a
    booking deletion answered 200 removes exactly one row. *)
Theorem delete_removes_one_row (id : string) (o : Oracle) (w : World) :
  reachable w ->
  responds_with 200 (fst (app (DELETE_bookings4 id) o w)) ->
  (List.length (bookings4 (db (snd (app (DELETE_bookings4 id) o w)))) + 1
   = List.length (bookings4 (db w)))%nat.
Proof.
  intros Hr.
  destruct (reachable_invariant w Hr) as (Hnd & _).
  handler.
  query (DeleteBooking (JStr id)) o w.
  - rewrite responds_with_sent. simpl. discriminate.
  - simpl in He. destruct (id_in (JStr id)) as [| k]; inversion He. simpl.
    assert (Hone := unique_key_hits Booking.id k (bookings4 (db w)) Hnd).
    assert (Hsplit := filter_split_length (fun b => Booking.id b =? k)
                        (bookings4 (db w))).
    match goal with
    | |- context [Nat.eqb ?n 0] => destruct (Nat.eqb_spec n 0) as [E | E]
    end; simpl; rewrite responds_with_sent; simpl; intros H;
      [discriminate | lia].
Qed.

(** X12: every booking row of a reachable state passed the check of its
    creation: its service, duration, price, name, phone and datetime are
    truthy (none is [null], [0], [false] or the empty string). *)
Theorem stored_bookings_are_valid (w : World) (b : Booking.t) :
  reachable w -> In b (bookings4 (db w)) -> valid_booking b.
Proof.
  intros Hr. revert b.
  induction Hr as [| req o w Hr IH]; intros b Hb.
  - destruct Hb.
  - destruct (app_bookings req o w)
      as [(E & _) | [(_ & (k & E) & _)
                    | [(_ & (k & E) & _) | (_ & (b0 & E & _ & _ & _ & Hv) & _)]]];
      rewrite E in Hb.
    + auto.
    + apply filter_In in Hb. now apply IH.
    + apply in_map_iff in Hb. destruct Hb as (b1 & <- & Hb1).
      specialize (IH _ Hb1). unfold confirm_row.
      now destruct (Booking.id b1 =? k).
    + apply in_app_or in Hb. destruct Hb as [Hb | [<- | []]]; auto.
Qed.

Lemma valid_rating_in_range (v : JsValue) (n : Number) :
  truthy v = true -> outside v 1 5 = inr false -> v = JNum n ->
  in_rating_range n.
Proof.
  intros Ht Ho ->. rewrite numeric_rating_outside in Ho.
  inversion Ho as [E]. apply orb_false_iff in E. destruct E as [E1 E5].
  destruct n as [| [|] | q]; simpl in *; try discriminate.
  split.
  - apply Qnot_lt_le. intros H. apply Qlt_bool_iff in H.
    exact (eq_true_false_abs _ H E1).
  - apply Qnot_lt_le. intros H. apply Qlt_bool_iff in H.
    exact (eq_true_false_abs _ H E5).
Qed.

(** X13: every testimonial row of a reachable state passed the two
    checks of its creation: its name, email, text and rating are truthy
    and its rating is neither below 1 nor above 5; a rating that is a
    number therefore lies within [1, 5]. *)
Theorem stored_testimonials_are_valid (w : World) (t : Testimonial.t) :
  reachable w -> In t (testimonials (db w)) ->
  valid_testimonial t
  /\ forall n, Testimonial.rating t = JNum n -> in_rating_range n.
Proof.
  intros Hr Ht.
  assert (Hv : valid_testimonial t).
  { revert t Ht.
    induction Hr as [| req o w Hr IH]; intros t Ht.
    - destruct Ht.
    - destruct (app_testimonials req o w)
        as [(E & _) | [(_ & (k & E) & _) | (_ & (t0 & E & _ & _ & Hv) & _)]];
        rewrite E in Ht.
      + auto.
      + apply filter_In in Ht. now apply IH.
      + apply in_app_or in Ht. destruct Ht as [Ht | [<- | []]]; auto. }
  split; [exact Hv |].
  intros n Hn. destruct Hv as (_ & _ & _ & Htr & Hout).
  now apply (valid_rating_in_range (Testimonial.rating t)).
Qed.

(** ** Statements, failures and the console *)

(** X6: a request passes at most one statement to the store, the one of
    its route; when it passes none, the tables are as they were. *)
Theorem one_statement_per_request (req : Request) (o : Oracle) (w : World) :
  (issued (snd (app req o w)) = issued w
   /\ db (snd (app req o w)) = db w)
  \/
  (exists q, statement_of req = Some q
             /\ issued (snd (app req o w)) = (issued w ++ [q])%list).
Proof.
  destruct req as [| body | id | body | body | body | | id]; handler;
    cbn [statement_of].
  - query SelectBookings o w; eauto.
  - validation; auto.
    match goal with |- context [pool_query ?q o w] => query q o w end; eauto.
  - query (DeleteBooking (JStr id)) o w; eauto.
    row_count; eauto.
  - validation; auto.
    destruct (ToString (get body "bookingId")),
             (ToString (get body "serviceName")),
             (ToString (get body "amount")); auto.
  - validation; auto.
    match goal with |- context [pool_query ?q o w] => query q o w end; eauto.
    row_count; evaluation; eauto.
  - validation; auto. evaluation; auto. validation; auto.
    match goal with |- context [pool_query ?q o w] => query q o w end; eauto.
  - query SelectTestimonials o w; eauto.
  - query (DeleteTestimonial (JStr id)) o w; eauto.
    row_count; eauto.
Qed.

Lemma responds_500 (text : string) :
  responds_with 500 (Sent (json 500 (ErrorBody text))).
Proof. eexists. split; reflexivity. Qed.

(** X7: when a request has passed its statement to the store and the
    store rejects it, for a reason of its own or because it cannot read
    a parameter, the response is 500 and the tables are as they
    were. *)
Theorem store_failure_answers_500 (req : Request) (q : Statement)
        (msg : string) (o : Oracle) (w : World) :
  statement_of req = Some q ->
  store_error q o w = Some msg ->
  issued (snd (app req o w)) <> issued w ->
  responds_with 500 (fst (app req o w))
  /\ db (snd (app req o w)) = db w.
Proof.
  intros Hq He.
  destruct req as [| body | id | body | body | body | | id];
    simpl in Hq; inversion Hq; subst q; clear Hq; handler.
  - rewrite (store_error_rejects _ _ _ _ He). simpl.
    intros _. split; [apply responds_500 | reflexivity].
  - validation; [intros H; now contradiction H |].
    rewrite (store_error_rejects _ _ _ _ He). simpl.
    intros _. split; [apply responds_500 | reflexivity].
  - rewrite (store_error_rejects _ _ _ _ He). simpl.
    intros _. split; [apply responds_500 | reflexivity].
  - validation; [intros H; now contradiction H |].
    rewrite (store_error_rejects _ _ _ _ He). simpl.
    intros _. split; [apply responds_500 | reflexivity].
  - validation; [intros H; now contradiction H |].
    evaluation; [intros H; now contradiction H |].
    validation; [intros H; now contradiction H |].
    rewrite (store_error_rejects _ _ _ _ He). simpl.
    intros _. split; [apply responds_500 | reflexivity].
  - rewrite (store_error_rejects _ _ _ _ He). simpl.
    intros _. split; [apply responds_500 | reflexivity].
  - rewrite (store_error_rejects _ _ _ _ He). simpl.
    intros _. split; [eexists; split; reflexivity | reflexivity].
Qed.

Ltac logged :=
  intros H; inversion H; subst; simpl; split; intros;
  try discriminate; try reflexivity;
  eexists; (split; [| reflexivity]); exact I.

(** X8: a handler that answers 500 has printed one line with
    [console.error], and nothing else, before answering; a handler that
    answers 400 has left the world exactly as it was: no statement was
    passed to the store and nothing was printed. *)
Theorem errors_are_logged (req : Request) (o : Oracle) (w : World)
        (r : Response) :
  fst (app req o w) = Sent r ->
  (status r = 500 ->
   exists l, error_line l
             /\ console (snd (app req o w)) = (console w ++ [l])%list)
  /\ (status r = 400 -> snd (app req o w) = w).
Proof.
  destruct req as [| body | id | body | body | body | | id]; handler.
  - query SelectBookings o w; logged.
  - validation; [logged |].
    match goal with |- context [pool_query ?q o w] => query q o w end; logged.
  - query (DeleteBooking (JStr id)) o w; [| row_count]; logged.
  - validation; [logged |].
    destruct (ToString (get body "bookingId")),
             (ToString (get body "serviceName")),
             (ToString (get body "amount")); discriminate.
  - validation; [logged |].
    match goal with |- context [pool_query ?q o w] => query q o w end;
      [| row_count; evaluation]; logged.
  - validation; [logged |].
    evaluation; [discriminate |].
    validation; [logged |].
    match goal with |- context [pool_query ?q o w] => query q o w end; logged.
  - query SelectTestimonials o w; logged.
  - query (DeleteTestimonial (JStr id)) o w; [| row_count].
    + destruct (String.eqb msg EmptyString); logged.
    + logged.
    + logged.
Qed.

(** ** Composition of the booking routes *)

Lemma payments_confirm_updates (body : Obj) (k : Z) (text : string)
      (o : Oracle) (w : World) :
  truthy (get body "bookingId") = true ->
  ToString (get body "bookingId") = inr text ->
  fault o = None -> id_in (get body "bookingId") = inr k ->
  has_booking k (db w) ->
  fst (app (POST_payments_confirm body) o w)
  = Sent (json 200 (MessageBody
            ("Payment for booking ID " ++ text ++ " confirmed successfully.")))
  /\ bookings4 (db (snd (app (POST_payments_confirm body) o w)))
     = map (confirm_row k) (bookings4 (db w)).
Proof.
  intros Ht Hs Hf Hk Hhas.
  assert (Hlen := filter_key_present k _ Hhas).
  handler. unfold not_, pool_query. rewrite Ht. cbn [negb]. rewrite Hf.
  simpl. rewrite Hk, Hs. rewrite !length_map.
  match goal with
  | |- context [Nat.eqb ?n 0] => destruct (Nat.eqb_spec n 0) as [E | _]
  end; [contradiction |].
  simpl. split; reflexivity.
Qed.

(** X11: the three booking routes compose.  After a booking creation
    answered 201 with the row [b] in a reachable state, a payment
    confirmation whose [bookingId] the store reads as the id of [b] is
    answered 200, and a following GET /bookings4 lists [b] with its
    payment completed, and no other row under that id. *)
Theorem create_confirm_list (w : World) (o o1 o2 : Oracle)
        (body confirmation : Obj) (b : Booking.t) (text : string) :
  reachable w ->
  fst (app (POST_bookings4 body) o w)
  = Sent (json 201 (RowBody (Some (BookingRow b)))) ->
  truthy (get confirmation "bookingId") = true ->
  ToString (get confirmation "bookingId") = inr text ->
  id_in (get confirmation "bookingId") = inr (Booking.id b) ->
  fault o1 = None -> fault o2 = None ->
  fst (app (POST_payments_confirm confirmation) o1
           (snd (app (POST_bookings4 body) o w)))
  = Sent (json 200 (MessageBody
            ("Payment for booking ID " ++ text ++ " confirmed successfully.")))
  /\
  exists l : list Booking.t,
    fst (app GET_bookings4 o2
             (snd (app (POST_payments_confirm confirmation) o1
                       (snd (app (POST_bookings4 body) o w)))))
    = Sent (json 200 (RowsBody (map BookingRow l)))
    /\ In (Booking.set_payment_status "completed" b) l
    /\ forall x, In x l -> Booking.id x = Booking.id b ->
                 x = Booking.set_payment_status "completed" b.
Proof.
  intros Hr Hcreated Ht Hs Hk Hf1 Hf2.
  destruct (created_booking body o w b Hcreated) as (Hrows & Hid).
  set (w1 := snd (app (POST_bookings4 body) o w)) in *.
  assert (Hhas : has_booking (Booking.id b) (db w1)).
  { exists b. split; trivial. rewrite Hrows. apply in_or_app. right. now left. }
  destruct (payments_confirm_updates confirmation (Booking.id b) text o1 w1
              Ht Hs Hf1 Hk Hhas) as (H200 & Hupd).
  split; [exact H200 |].
  set (w2 := snd (app (POST_payments_confirm confirmation) o1 w1)) in *.
  assert (Hr2 : reachable w2)
    by (unfold w2, w1; now repeat apply reachable_step).
  destruct (reachable_invariant w2 Hr2) as (Hnd & _).
  rewrite (get_bookings4_lists o2 w2 Hf2).
  eexists. split; [reflexivity |].
  assert (Hperm := order_by_desc_perm booking_leb (bookings4 (db w2))).
  assert (Hin : In (Booking.set_payment_status "completed" b)
                   (bookings4 (db w2))).
  { rewrite Hupd. apply in_map_iff. exists b. split.
    - unfold confirm_row. now rewrite Z.eqb_refl.
    - rewrite Hrows. apply in_or_app. right. now left. }
  split.
  - now apply (Permutation_in _ Hperm).
  - intros x Hx Hidx.
    apply (Permutation_in _ (Permutation_sym Hperm)) in Hx.
    now apply (same_key_same_row (bookings4 (db w2))).
Qed.

(** ** Ratings that are not numbers *)

(** X14: the range check lets through a truthy rating that does not
    convert to a number (NaN is neither below 1 nor above 5): with the
    other fields present the request is accepted with 201 when the
    store does not fail, and the row keeps the rating as it was sent. *)
Theorem nan_rating_is_accepted (body : Obj) (o : Oracle) (w : World) :
  testimonial_others_present body ->
  truthy (get body "rating") = true ->
  ToNumber (get body "rating") = inr NaN ->
  fault o = None ->
  exists t : Testimonial.t,
    fst (app (POST_testimonials body) o w)
    = Sent (json 201 (RowBody (Some (TestimonialRow t))))
    /\ Testimonial.rating t = get body "rating".
Proof.
  intros Hp Ht Hn Hf.
  destruct (post_testimonials_accepts body o w) as (t & H201 & _ & Hr & _);
    trivial.
  - rewrite (others_present_required body Hp). unfold not_. now rewrite Ht.
  - unfold rating_out_of_range. now rewrite (outside_number _ _ Hn).
  - exists t. split; trivial. now rewrite Hr, pg_value_truthy.
Qed.

(** X16: a rating that is an object with a property of its own named
    [toString] cannot be compared with a number: with the other fields
    present, the comparison throws outside the [try] block, so the
    handler sends no response, passes no statement to the store and
    leaves the world as it was. *)
Theorem unconvertible_rating_escapes (body : Obj) (props : Obj) (o : Oracle)
        (w : World) :
  testimonial_others_present body ->
  get body "rating" = JObj props ->
  has_own_property props "toString" = true ->
  app (POST_testimonials body) o w = (Escaped not_primitive, w).
Proof.
  intros Hp Hr Hts.
  assert (Hreq := others_present_required body Hp).
  rewrite Hr in Hreq. simpl in Hreq.
  handler. fold (testimonial_required body). rewrite Hreq, Hr.
  unfold outside, lt_lit, ToNumber, ToString. now rewrite Hts.
Qed.




(** X17: the only response that the handler of POST
    /api/payments/initiate ever sends is the 400 of its validation,
    which leaves the world as it was; no request is answered 200. *)
Theorem initiate_only_answers_400 (body : Obj) (o : Oracle) (w : World)
        (r : Response) :
  fst (app (POST_payments_initiate body) o w) = Sent r ->
  r = json 400 (ErrorBody
        "Payment amount, service name, and booking ID are required to initiate payment.")
  /\ snd (app (POST_payments_initiate body) o w) = w.
Proof.
  handler. validation.
  - intros H. inversion H. auto.
  - destruct (ToString (get body "bookingId")),
             (ToString (get body "serviceName")),
             (ToString (get body "amount")); discriminate.
Qed.

End Properties.

(** * Examples *)

#[local] Existing Instance example_platform.

Lemma example_world_reachable : reachable example_world.
Proof. apply reachable_step. apply reachable_initial. Qed.

Lemma example_world_has_booking : has_booking 1 (db example_world).
Proof. exists example_row. split; [now left | reflexivity]. Qed.

(** C8 on a request without [amount]. *)
Lemma initiate_payment_frame_witness :
  missing [("serviceName", JStr "Massage"); ("bookingId", JStr "1")] "amount"
  /\ db (snd (app (POST_payments_initiate
                     [("serviceName", JStr "Massage"); ("bookingId", JStr "1")])
                  example_oracle example_world)) = db example_world
  /\ fst (app (POST_payments_initiate
                 [("serviceName", JStr "Massage"); ("bookingId", JStr "1")])
              example_oracle example_world)
     = Sent (json 400 (ErrorBody
         "Payment amount, service name, and booking ID are required to initiate payment.")).
Proof.
  assert (Hm : missing [("serviceName", JStr "Massage"); ("bookingId", JStr "1")]
                       "amount") by reflexivity.
  destruct (initiate_payment_frame
              [("serviceName", JStr "Massage"); ("bookingId", JStr "1")]
              example_oracle example_world) as (Hdb & _ & H400).
  split; [exact Hm |]. split; [exact Hdb |].
  apply H400. left. exact Hm.
Defined.

(** C4 on the booking of the scenario, and on the same booking with a
    price of 0. *)
Lemma create_booking_contract_witness :
  (forall k, In k booking_fields -> truthy (get example_booking k) = true)
  /\ fault example_oracle = None
  /\ (exists b : Booking.t,
        fst (app (POST_bookings4 example_booking) example_oracle initial_world)
        = Sent (json 201 (RowBody (Some (BookingRow b))))
        /\ Booking.price b = JNum (of_Z 50)
        /\ Booking.payment_status b = "pending")
  /\ app (POST_bookings4 (("price", JNum (of_Z 0)) :: example_booking))
         example_oracle initial_world
     = (Sent (json 400 (ErrorBody "All booking fields are required.")),
        initial_world).
Proof.
  assert (Hall : forall k, In k booking_fields ->
                           truthy (get example_booking k) = true).
  { intros k Hk. simpl in Hk.
    repeat (destruct Hk as [<- | Hk]; [reflexivity |]). contradiction. }
  split; [exact Hall |]. split; [reflexivity |]. split.
  - destruct (proj2 (create_booking_contract example_booking example_oracle
                       initial_world) Hall eq_refl)
      as (b & Hr & _ & _ & _ & _ & Hp & _ & _ & _ & Hs).
    exists b. auto.
  - apply (proj1 (create_booking_contract
                    (("price", JNum (of_Z 0)) :: example_booking)
                    example_oracle initial_world)).
    exists "price". split; [simpl; tauto | reflexivity].
Defined.

(** C6 on the booking of the scenario: deleted once, then once more;
    and on an id that the store cannot read. *)
Lemma delete_booking_contract_witness :
  fault example_oracle = None
  /\ id_in (JStr "1") = inr 1
  /\ has_booking 1 (db example_world)
  /\ fst (app (DELETE_bookings4 "1") example_oracle example_world)
     = Sent (json 200 (MessageBody "Booking with ID 1 deleted successfully."))
  /\ fst (app (DELETE_bookings4 "1") example_oracle
              (snd (app (DELETE_bookings4 "1") example_oracle example_world)))
     = Sent (json 404 (ErrorBody "Booking with ID 1 not found."))
  /\ store_error (DeleteBooking (JStr "abc")) example_oracle example_world
     = Some "invalid input syntax for type integer"
  /\ fst (app (DELETE_bookings4 "abc") example_oracle example_world)
     = Sent (json 500 (ErrorBody "Failed to delete booking from the database."))
  /\ db (snd (app (DELETE_bookings4 "abc") example_oracle example_world))
     = db example_world.
Proof.
  split; [reflexivity |]. split; [reflexivity |].
  split; [exact example_world_has_booking |].
  assert (Hk : id_in (JStr "1") = inr 1) by reflexivity.
  destruct (proj2 (proj2 (delete_booking_contract "1" 1 EmptyString
                            example_oracle example_oracle example_oracle
                            example_world) eq_refl Hk)
                  example_world_has_booking)
    as (H200 & _ & _ & H404).
  split; [exact H200 |]. split; [exact (H404 eq_refl) |].
  assert (He : store_error (DeleteBooking (JStr "abc")) example_oracle
                 example_world
               = Some "invalid input syntax for type integer") by reflexivity.
  split; [exact He |].
  exact (proj1 (delete_booking_contract "abc" 0
                  "invalid input syntax for type integer" example_oracle
                  example_oracle example_oracle example_world) He).
Defined.

(** C6 would have DELETE /bookings4/abc answered 404: the only row of
    the table has the id 1, so no row has the id [abc], yet the store
    cannot read [abc] as a key, [pool.query] rejects, and the answer is
    500, not 404. *)
Lemma delete_booking_unreadable_id_counterexample :
  (forall b, In b (bookings4 (db example_world)) -> Booking.id b = 1)
  /\ id_in (JStr "abc") = inl "invalid input syntax for type integer"
  /\ fst (app (DELETE_bookings4 "abc") example_oracle example_world)
     = Sent (json 500 (ErrorBody "Failed to delete booking from the database."))
  /\ ~ responds_with 404
         (fst (app (DELETE_bookings4 "abc") example_oracle example_world)).
Proof.
  split.
  - intros b [<- | []]. reflexivity.
  - split; [reflexivity |]. split; [reflexivity |].
    intros (r & E & H). inversion E. subst r. discriminate.
Qed.

(** C3 on the booking of the scenario: confirmed once, then once
    more. *)
Lemma confirm_payment_contract_witness :
  truthy (get example_confirmation "bookingId") = true
  /\ fault example_oracle = None
  /\ ToString (get example_confirmation "bookingId") = inr "1"
  /\ id_in (get example_confirmation "bookingId") = inr 1
  /\ has_booking 1 (db example_world)
  /\ fst (app (POST_payments_confirm example_confirmation) example_oracle
              example_world)
     = Sent (json 200 (MessageBody
               "Payment for booking ID 1 confirmed successfully."))
  /\ db (snd (app (POST_payments_confirm example_confirmation) example_oracle
                  (snd (app (POST_payments_confirm example_confirmation)
                            example_oracle example_world))))
     = db (snd (app (POST_payments_confirm example_confirmation) example_oracle
                    example_world)).
Proof.
  split; [reflexivity |]. split; [reflexivity |]. split; [reflexivity |].
  split; [reflexivity |]. split; [exact example_world_has_booking |].
  assert (Hk : id_in (get example_confirmation "bookingId") = inr 1)
    by reflexivity.
  assert (Hs : ToString (get example_confirmation "bookingId") = inr "1")
    by reflexivity.
  destruct (proj2 (proj2 (confirm_payment_contract example_confirmation 1 "1"
                            example_oracle example_oracle example_world)
                         eq_refl Hs eq_refl Hk)
                  example_world_has_booking)
    as (H200 & _ & _ & Hagain).
  split; [exact H200 | exact (proj2 (Hagain eq_refl))].
Defined.

(** C3 would have [{bookingId: 0}] answered 404 in the empty tables:
    the field is present and no row matches it, yet the answer is 400,
    not 404. *)
Lemma confirm_payment_zero_id_counterexample :
  get [("bookingId", JNum (of_Z 0))] "bookingId" <> JUndefined
  /\ bookings4 (db initial_world) = []
  /\ fst (app (POST_payments_confirm [("bookingId", JNum (of_Z 0))])
              example_oracle initial_world)
     = Sent (json 400 (ErrorBody "Booking ID is required to confirm payment."))
  /\ ~ responds_with 404
         (fst (app (POST_payments_confirm [("bookingId", JNum (of_Z 0))])
                   example_oracle initial_world)).
Proof.
  split; [discriminate |]. split; [reflexivity |]. split; [reflexivity |].
  intros (r & E & H). inversion E. subst r. discriminate.
Qed.

(** C2 on the confirmation of the booking of the scenario. *)
Lemma payment_status_lifecycle_witness :
  reachable example_world
  /\ (forall b, In b (bookings4 (db example_world)) -> pending_or_completed b)
  /\ (forall b b',
        In b (bookings4 (db example_world)) ->
        In b' (bookings4 (db (snd (app (POST_payments_confirm example_confirmation)
                                       example_oracle example_world)))) ->
        Booking.id b' = Booking.id b ->
        Booking.payment_status b = "completed" ->
        Booking.payment_status b' = "completed").
Proof.
  split; [exact example_world_reachable |].
  destruct (payment_status_lifecycle example_world
              (POST_payments_confirm example_confirmation) example_oracle
              example_world_reachable) as (Hst & _ & _ & Hkeep).
  split; [exact Hst | exact Hkeep].
Defined.

(** C7 on the empty tables and the booking of the scenario. *)
Lemma list_bookings_contract_witness :
  total datetime_leb
  /\ transitive datetime_leb
  /\ fault example_oracle = None
  /\ reachable initial_world
  /\ fst (app (POST_bookings4 example_booking) example_oracle initial_world)
     = Sent (json 201 (RowBody (Some (BookingRow example_row))))
  /\ (exists l : list Booking.t,
        fst (app GET_bookings4 example_oracle example_world)
        = Sent (json 200 (RowsBody (map BookingRow l)))
        /\ In example_row l
        /\ List.length (filter (fun x => Booking.id x =? Booking.id example_row) l)
           = 1%nat).
Proof.
  split; [exact example_datetime_total |].
  split; [exact example_datetime_transitive |].
  split; [reflexivity |]. split; [exact reachable_initial |].
  split; [reflexivity |].
  exact (proj2 (list_bookings_contract initial_world example_oracle
                  example_oracle example_booking example_row
                  example_datetime_total example_datetime_transitive)
               reachable_initial eq_refl eq_refl).
Defined.

Lemma example_others_present (rating genuineOpinion : JsValue) :
  genuineOpinion <> JUndefined ->
  testimonial_others_present (example_testimonial rating genuineOpinion).
Proof. intros H. repeat split; trivial. Qed.

(** C5 on a rating of 2.5, which lies within the bounds. *)
Lemma rating_validation_witness :
  testimonial_others_present
    (example_testimonial (JNum (Finite (5 # 2))) (JBool true))
  /\ get (example_testimonial (JNum (Finite (5 # 2))) (JBool true)) "rating"
     = JNum (Finite (5 # 2))
  /\ in_rating_range (Finite (5 # 2))
  /\ fault example_oracle = None
  /\ ~ responds_with 400
         (fst (app (POST_testimonials
                      (example_testimonial (JNum (Finite (5 # 2))) (JBool true)))
                   example_oracle initial_world))
  /\ exists t : Testimonial.t,
       fst (app (POST_testimonials
                   (example_testimonial (JNum (Finite (5 # 2))) (JBool true)))
                example_oracle initial_world)
       = Sent (json 201 (RowBody (Some (TestimonialRow t))))
       /\ Testimonial.rating t = JNum (Finite (5 # 2)).
Proof.
  assert (Hp : testimonial_others_present
                 (example_testimonial (JNum (Finite (5 # 2))) (JBool true)))
    by (apply example_others_present; discriminate).
  assert (Hin : in_rating_range (Finite (5 # 2)))
    by (split; discriminate).
  destruct (proj2 (rating_validation
                     (example_testimonial (JNum (Finite (5 # 2))) (JBool true))
                     (Finite (5 # 2)) example_oracle initial_world Hp)
                  eq_refl) as (Hrej & Hacc & _).
  split; [exact Hp |]. split; [reflexivity |]. split; [exact Hin |].
  split; [reflexivity |]. split.
  - intros H400. exact (proj1 Hrej H400 Hin).
  - exact (Hacc Hin eq_refl).
Defined.

(** C5 would have a rating of 2.5 rejected: the required fields are
    present and 2.5 is not an integer, yet the response is not 400 but
    201. *)
Lemma rating_not_integer_counterexample :
  testimonial_others_present
    (example_testimonial (JNum (Finite (5 # 2))) (JBool true))
  /\ truthy (JNum (Finite (5 # 2))) = true
  /\ ~ (exists k : Z, (5 # 2 == inject_Z k)%Q)
  /\ ~ responds_with 400
         (fst (app (POST_testimonials
                      (example_testimonial (JNum (Finite (5 # 2))) (JBool true)))
                   example_oracle initial_world))
  /\ responds_with 201
       (fst (app (POST_testimonials
                    (example_testimonial (JNum (Finite (5 # 2))) (JBool true)))
                 example_oracle initial_world)).
Proof.
  split; [apply example_others_present; discriminate |].
  split; [reflexivity |]. split.
  - intros (k & E). unfold Qeq in E. simpl in E. lia.
  - split.
    + intros (r & E & H). inversion E. subst r. discriminate.
    + eexists. split; reflexivity.
Qed.

(** C10 on [genuineOpinion: false]. *)
Lemma genuine_opinion_presence_witness :
  testimonial_others_present (example_testimonial (JNum (of_Z 5)) (JBool false))
  /\ truthy (get (example_testimonial (JNum (of_Z 5)) (JBool false)) "rating")
     = true
  /\ rating_out_of_range (example_testimonial (JNum (of_Z 5)) (JBool false))
     = inr false
  /\ fault example_oracle = None
  /\ exists t : Testimonial.t,
       fst (app (POST_testimonials
                   (example_testimonial (JNum (of_Z 5)) (JBool false)))
                example_oracle initial_world)
       = Sent (json 201 (RowBody (Some (TestimonialRow t))))
       /\ Testimonial.genuine_opinion t = JBool false.
Proof.
  assert (Hp : testimonial_others_present
                 (example_testimonial (JNum (of_Z 5)) (JBool false)))
    by (apply example_others_present; discriminate).
  split; [exact Hp |]. split; [reflexivity |]. split; [reflexivity |].
  split; [reflexivity |].
  exact (proj1 (genuine_opinion_presence
                  (example_testimonial (JNum (of_Z 5)) (JBool false))
                  example_oracle initial_world)
               Hp eq_refl eq_refl eq_refl).
Defined.

(** C9 on a lost connection, for the two deletions. *)
Lemma store_error_disclosure_witness :
  store_error (DeleteTestimonial (JStr "7")) example_failure example_world
  = Some "connection terminated unexpectedly"
  /\ (exists e : string,
        fst (app (DELETE_testimonials "7") example_failure example_world)
        = Sent (json 500 (ErrorBody e))
        /\ includes e "connection terminated unexpectedly")
  /\ fst (app (DELETE_bookings4 "7") example_failure example_world)
     = Sent (json 500 (ErrorBody "Failed to delete booking from the database."))
  /\ (exists e : string,
        generic_500 (DELETE_bookings4 "7") = Some e
        /\ body (json 500 (ErrorBody
                   "Failed to delete booking from the database."))
           = ErrorBody e).
Proof.
  split; [reflexivity |].
  destruct (store_error_disclosure (DELETE_bookings4 "7") "7"
              "connection terminated unexpectedly" example_failure
              example_world) as (Hleak & Hgeneric).
  split; [exact (Hleak eq_refl) |]. split; [reflexivity |].
  apply Hgeneric.
  - intros id' E. discriminate E.
  - reflexivity.
  - reflexivity.
Defined.

(** ** Examples of the further properties *)

Lemma example_review_world_reachable : reachable example_review_world.
Proof. apply reachable_step. apply reachable_initial. Qed.

Lemma example_review_stored : In example_review (testimonials (db example_review_world)).
Proof. now left. Qed.

(** X1 on the state that holds one testimonial. *)
Lemma list_testimonials_contract_witness :
  fault example_oracle = None
  /\ exists l : list Testimonial.t,
       fst (app GET_testimonials example_oracle example_review_world)
       = Sent (json 200 (RowsBody (map TestimonialRow l)))
       /\ Permutation (testimonials (db example_review_world)) l
       /\ StronglySorted (descending testimonial_leb) l.
Proof.
  split; [reflexivity |].
  exact (proj2 (list_testimonials_contract example_oracle example_review_world)
               eq_refl).
Defined.

(** X2 on that testimonial. *)
Lemma delete_testimonial_contract_witness :
  fault example_oracle = None
  /\ id_in (JStr "1") = inr 1
  /\ has_testimonial 1 (db example_review_world)
  /\ fst (app (DELETE_testimonials "1") example_oracle example_review_world)
     = Sent (json 200 (MessageBody
               "Testimonial with ID 1 deleted successfully."))
  /\ fst (app (DELETE_testimonials "1") example_oracle
              (snd (app (DELETE_testimonials "1") example_oracle
                        example_review_world)))
     = Sent (json 404 (ErrorBody "Testimonial with ID 1 not found.")).
Proof.
  assert (Hk : id_in (JStr "1") = inr 1) by reflexivity.
  assert (Hhas : has_testimonial 1 (db example_review_world)).
  { exists example_review. split; [exact example_review_stored | reflexivity]. }
  split; [reflexivity |]. split; [exact Hk |]. split; [exact Hhas |].
  destruct (proj2 (delete_testimonial_contract "1" 1 example_oracle
                     example_oracle example_oracle example_review_world
                     eq_refl Hk) Hhas)
    as (H200 & _ & _ & _ & H404).
  split; [exact H200 | exact (H404 eq_refl)].
Defined.

(** X3 on the creation of that testimonial. *)
Lemma created_testimonial_listed_once_witness :
  reachable initial_world
  /\ fst (app (POST_testimonials
                 (example_testimonial (JNum (of_Z 5)) (JBool true)))
              example_oracle initial_world)
     = Sent (json 201 (RowBody (Some (TestimonialRow example_review))))
  /\ fault example_oracle = None
  /\ exists l : list Testimonial.t,
       fst (app GET_testimonials example_oracle example_review_world)
       = Sent (json 200 (RowsBody (map TestimonialRow l)))
       /\ In example_review l
       /\ List.length
            (filter (fun x => Testimonial.id x =? Testimonial.id example_review)
                    l) = 1%nat.
Proof.
  split; [exact reachable_initial |]. split; [reflexivity |].
  split; [reflexivity |].
  exact (created_testimonial_listed_once initial_world example_oracle
           example_oracle (example_testimonial (JNum (of_Z 5)) (JBool true))
           example_review reachable_initial eq_refl eq_refl).
Defined.

(** X4 on that testimonial across a deletion of another id. *)
Lemma testimonials_are_immutable_witness :
  reachable example_review_world
  /\ In example_review (testimonials (db example_review_world))
  /\ In example_review
        (testimonials (db (snd (app (DELETE_testimonials "2") example_oracle
                                    example_review_world))))
  /\ example_review = example_review.
Proof.
  assert (Hafter : In example_review
            (testimonials (db (snd (app (DELETE_testimonials "2")
                                        example_oracle example_review_world)))))
    by now left.
  split; [exact example_review_world_reachable |].
  split; [exact example_review_stored |]. split; [exact Hafter |].
  exact (testimonials_are_immutable example_review_world
           (DELETE_testimonials "2") example_oracle example_review
           example_review example_review_world_reachable
           example_review_stored Hafter eq_refl).
Defined.

(** X5 on a listing of the bookings. *)
Lemma routes_write_their_own_table_witness :
  writes_bookings GET_bookings4 = false
  /\ writes_testimonials GET_bookings4 = false
  /\ db (snd (app GET_bookings4 example_oracle example_world))
     = db example_world.
Proof.
  split; [reflexivity |]. split; [reflexivity |].
  exact (proj2 (proj2 (routes_write_their_own_table GET_bookings4
                         example_oracle example_world))
               eq_refl eq_refl).
Defined.

(** X7 on an id that the store cannot read. *)
Lemma store_failure_answers_500_witness :
  statement_of (DELETE_bookings4 "abc") = Some (DeleteBooking (JStr "abc"))
  /\ store_error (DeleteBooking (JStr "abc")) example_oracle example_world
     = Some "invalid input syntax for type integer"
  /\ issued (snd (app (DELETE_bookings4 "abc") example_oracle example_world))
     <> issued example_world
  /\ responds_with 500
       (fst (app (DELETE_bookings4 "abc") example_oracle example_world))
  /\ db (snd (app (DELETE_bookings4 "abc") example_oracle example_world))
     = db example_world.
Proof.
  assert (Hi : issued (snd (app (DELETE_bookings4 "abc") example_oracle
                                example_world))
               <> issued example_world) by discriminate.
  assert (He : store_error (DeleteBooking (JStr "abc")) example_oracle
                 example_world
               = Some "invalid input syntax for type integer") by reflexivity.
  split; [reflexivity |]. split; [exact He |]. split; [exact Hi |].
  exact (store_failure_answers_500 (DELETE_bookings4 "abc")
           (DeleteBooking (JStr "abc")) "invalid input syntax for type integer"
           example_oracle example_world eq_refl He Hi).
Defined.

(** X8 on a lost connection. *)
Lemma errors_are_logged_witness :
  fst (app (DELETE_bookings4 "1") example_failure example_world)
  = Sent (json 500 (ErrorBody "Failed to delete booking from the database."))
  /\ exists l, error_line l
               /\ console (snd (app (DELETE_bookings4 "1") example_failure
                                    example_world))
                  = (console example_world ++ [l])%list.
Proof.
  split; [reflexivity |].
  exact (proj1 (errors_are_logged (DELETE_bookings4 "1") example_failure
                  example_world
                  (json 500 (ErrorBody
                     "Failed to delete booking from the database."))
                  eq_refl) eq_refl).
Defined.

(** X10 on the booking of the scenario. *)
Lemma delete_removes_one_row_witness :
  reachable example_world
  /\ responds_with 200
       (fst (app (DELETE_bookings4 "1") example_oracle example_world))
  /\ (List.length (bookings4 (db (snd (app (DELETE_bookings4 "1")
                                           example_oracle example_world)))) + 1
      = List.length (bookings4 (db example_world)))%nat.
Proof.
  assert (H200 : responds_with 200
            (fst (app (DELETE_bookings4 "1") example_oracle example_world)))
    by (eexists; split; reflexivity).
  split; [exact example_world_reachable |]. split; [exact H200 |].
  exact (delete_removes_one_row "1" example_oracle example_world
           example_world_reachable H200).
Defined.

(** X11 on the scenario: created, confirmed, listed. *)
Lemma create_confirm_list_witness :
  reachable initial_world
  /\ fst (app (POST_bookings4 example_booking) example_oracle initial_world)
     = Sent (json 201 (RowBody (Some (BookingRow example_row))))
  /\ truthy (get example_confirmation "bookingId") = true
  /\ ToString (get example_confirmation "bookingId") = inr "1"
  /\ id_in (get example_confirmation "bookingId") = inr (Booking.id example_row)
  /\ fault example_oracle = None
  /\ exists l : list Booking.t,
       fst (app GET_bookings4 example_oracle
                (snd (app (POST_payments_confirm example_confirmation)
                          example_oracle example_world)))
       = Sent (json 200 (RowsBody (map BookingRow l)))
       /\ In (Booking.set_payment_status "completed" example_row) l.
Proof.
  assert (Hs : ToString (get example_confirmation "bookingId") = inr "1")
    by reflexivity.
  assert (Hk : id_in (get example_confirmation "bookingId")
               = inr (Booking.id example_row)) by reflexivity.
  split; [exact reachable_initial |]. split; [reflexivity |].
  split; [reflexivity |]. split; [exact Hs |]. split; [exact Hk |].
  split; [reflexivity |].
  destruct (create_confirm_list initial_world example_oracle example_oracle
              example_oracle example_booking example_confirmation example_row
              "1" reachable_initial eq_refl eq_refl Hs Hk eq_refl eq_refl)
    as (_ & l & Hl & Hin & _).
  exists l. split; [exact Hl | exact Hin].
Defined.

(** X12 on the booking of the scenario. *)
Lemma stored_bookings_are_valid_witness :
  reachable example_world
  /\ In example_row (bookings4 (db example_world))
  /\ valid_booking example_row.
Proof.
  assert (Hin : In example_row (bookings4 (db example_world))) by now left.
  split; [exact example_world_reachable |]. split; [exact Hin |].
  exact (stored_bookings_are_valid example_world example_row
           example_world_reachable Hin).
Defined.

(** X13 on the testimonial of rating 5. *)
Lemma stored_testimonials_are_valid_witness :
  reachable example_review_world
  /\ In example_review (testimonials (db example_review_world))
  /\ valid_testimonial example_review
  /\ in_rating_range (of_Z 5).
Proof.
  split; [exact example_review_world_reachable |].
  split; [exact example_review_stored |].
  destruct (stored_testimonials_are_valid example_review_world example_review
              example_review_world_reachable example_review_stored)
    as (Hv & Hrange).
  split; [exact Hv | exact (Hrange (of_Z 5) eq_refl)].
Defined.

(** X14 on a rating spelled out in letters. *)
Lemma nan_rating_is_accepted_witness :
  testimonial_others_present (example_testimonial (JStr "five") (JBool true))
  /\ truthy (get (example_testimonial (JStr "five") (JBool true)) "rating")
     = true
  /\ ToNumber (get (example_testimonial (JStr "five") (JBool true)) "rating")
     = inr NaN
  /\ fault example_oracle = None
  /\ exists t : Testimonial.t,
       fst (app (POST_testimonials
                   (example_testimonial (JStr "five") (JBool true)))
                example_oracle initial_world)
       = Sent (json 201 (RowBody (Some (TestimonialRow t))))
       /\ Testimonial.rating t = JStr "five".
Proof.
  assert (Hp : testimonial_others_present
                 (example_testimonial (JStr "five") (JBool true)))
    by (apply example_others_present; discriminate).
  assert (Hn : ToNumber (get (example_testimonial (JStr "five") (JBool true))
                             "rating") = inr NaN) by reflexivity.
  split; [exact Hp |]. split; [reflexivity |]. split; [exact Hn |].
  split; [reflexivity |].
  exact (nan_rating_is_accepted
           (example_testimonial (JStr "five") (JBool true))
           example_oracle initial_world Hp eq_refl Hn eq_refl).
Defined.

(** X16 on a rating that is an object with a [toString] property. *)
Lemma unconvertible_rating_escapes_witness :
  testimonial_others_present
    (example_testimonial example_unprintable (JBool true))
  /\ has_own_property [("toString", JNum (of_Z 1))] "toString" = true
  /\ app (POST_testimonials
            (example_testimonial example_unprintable (JBool true)))
         example_oracle example_world
     = (Escaped not_primitive, example_world).
Proof.
  assert (Hp : testimonial_others_present
                 (example_testimonial example_unprintable (JBool true)))
    by (apply example_others_present; discriminate).
  split; [exact Hp |]. split; [reflexivity |].
  exact (unconvertible_rating_escapes
           (example_testimonial example_unprintable (JBool true))
           [("toString", JNum (of_Z 1))] example_oracle example_world
           Hp eq_refl eq_refl).
Defined.

(** X17 on a request without [amount]. *)
Lemma initiate_only_answers_400_witness :
  fst (app (POST_payments_initiate [("serviceName", JStr "Massage")])
           example_oracle example_world)
  = Sent (json 400 (ErrorBody
       "Payment amount, service name, and booking ID are required to initiate payment."))
  /\ snd (app (POST_payments_initiate [("serviceName", JStr "Massage")])
              example_oracle example_world) = example_world.
Proof.
  split; [reflexivity |].
  exact (proj2 (initiate_only_answers_400 [("serviceName", JStr "Massage")]
                  example_oracle example_world _ eq_refl)).
Defined.

